(** * scGEN: the Keras variational auto-encoder with latent vector arithmetic

    A shallow embedding of [scgen/models/_vae_keras.py] (class
    [VAEArithKeras]).  Python floats are idealised as real numbers; the
    numerical back end (Keras layers, the optimiser, the session) and the
    helpers of [scgen.models.util] enter as an interface.  Methods are
    computations in a state-and-exception monad; the state holds the
    attributes of the object, the files, a counter of the random draws made
    (every random operation consumes one index, which makes randomness an
    explicit input), and the trace of the calls made to the outside. *)

From Stdlib Require Import Reals Lra Lia Ascii String List Bool Arith ZArith.
Import ListNotations.

Set Implicit Arguments.

(* ================================================================== *)
(** * Python exceptions and the state-and-exception monad *)

Inductive exn : Type :=
| Exception (msg : string)      (* [raise Exception("...")] *)
| AttributeError (attr : string) (* access to an attribute that is absent *)
| KeyError (key : string)        (* [d[k]] with [k] absent *)
| IndexError                     (* [l[i]] out of range *)
| TypeError
| ValueError                     (* numpy: operands could not be broadcast *)
| RuntimeError                   (* Keras: model used before [compile] *)
| OSError (path : string).       (* [load_model] on a missing file *)

Inductive result (A : Type) : Type :=
| Ok (a : A)
| Raise (e : exn).

Arguments Ok {A} a.
Arguments Raise {A} e.

Definition rbind {A B} (r : result A) (f : A -> result B) : result B :=
  match r with
  | Ok a => f a
  | Raise e => Raise e
  end.

Fixpoint rmapM {A B} (f : A -> result B) (l : list A) : result (list B) :=
  match l with
  | [] => Ok []
  | x :: l' => rbind (f x) (fun y => rbind (rmapM f l') (fun ys => Ok (y :: ys)))
  end.

Section StateExn.
Variable S : Type.

(** A computation maps a state to an outcome and a state; the state reached
    is kept when an exception is raised, since the effects performed before
    the [raise] stay. *)
Definition M (A : Type) : Type := S -> result A * S.

Definition ret {A} (a : A) : M A := fun s => (Ok a, s).
Definition raise {A} (e : exn) : M A := fun s => (Raise e, s).
Definition bind {A B} (m : M A) (f : A -> M B) : M B :=
  fun s => match m s with
           | (Ok a, s') => f a s'
           | (Raise e, s') => (Raise e, s')
           end.
Definition get : M S := fun s => (Ok s, s).
Definition modify (f : S -> S) : M unit := fun s => (Ok tt, f s).
Definition lift {A} (r : result A) : M A := fun s => (r, s).
End StateExn.

Arguments ret {S A} a.
Arguments raise {S A} e.
Arguments bind {S A B} m f.
Arguments get {S}.
Arguments modify {S} f.
Arguments lift {S A} r.

Declare Scope py_scope.
Delimit Scope py_scope with py.
Notation "x <- m ;; k" := (bind m (fun x => k))
  (at level 61, m at next level, right associativity) : py_scope.
Notation "m ;;; k" := (bind m (fun _ => k))
  (at level 61, right associativity) : py_scope.
Notation "' pat <- m ;; k" := (bind m (fun x => match x with pat => k end))
  (at level 61, pat pattern, m at next level, right associativity) : py_scope.

(* ================================================================== *)
(** * Arrays *)

(** A two-dimensional array is the list of its rows.  Arrays are rectangular;
    a batch without rows has no recorded width. *)
Definition tensor2 : Type := list (list R).

Definition shape0 (m : tensor2) : nat := length m.
Definition shape1 (m : tensor2) : nat := length (hd [] m).

(** [m] has shape [[n, d]]. *)
Definition has_shape (n d : nat) (m : tensor2) : Prop :=
  length m = n /\ Forall (fun row => length row = d) m.

Definition total (v : list R) : R := fold_right Rplus 0%R v.
Definition mean (v : list R) : R := (total v / INR (length v))%R.

Fixpoint map2 {A B C} (f : A -> B -> C) (a : list A) (b : list B) : list C :=
  match a, b with
  | x :: a', y :: b' => f x y :: map2 f a' b'
  | _, _ => []
  end.

(** ** Symbolic tensors of the Keras back end ([K.*], [tf.*])

    Shapes of graph tensors agree statically, so element-wise operations pair
    the entries up. *)
Module K.
Definition exp (t : tensor2) : tensor2 := map (map Rtrigo_def.exp) t.
Definition square (t : tensor2) : tensor2 := map (map (fun x => x * x)%R) t.
Definition add (a b : tensor2) : tensor2 := map2 (map2 Rplus) a b.
Definition sub (a b : tensor2) : tensor2 := map2 (map2 Rminus) a b.
Definition mul (a b : tensor2) : tensor2 := map2 (map2 Rmult) a b.
Definition sub_scalar (a : tensor2) (c : R) : tensor2 :=
  map (map (fun x => x - c)%R) a.
Definition div_scalar (a : tensor2) (c : R) : tensor2 :=
  map (map (fun x => x / c)%R) a.
(** [K.sum(t, axis=1)] *)
Definition sum_axis1 (t : tensor2) : list R := map total t.
Definition scale (c : R) (v : list R) : list R := map (Rmult c) v.
Definition vadd (a b : list R) : list R := map2 Rplus a b.
Definition mean (v : list R) : R := mean v.
(** [K.random_normal(shape=[rows, cols])], the entries given by [draw]. *)
Definition random_normal (draw : nat -> nat -> R) (rows cols : nat) : tensor2 :=
  map (fun i => map (fun j => draw i j) (seq 0 cols)) (seq 0 rows).
End K.

(** [_sample_z]: the re-parametrisation trick, [mu + exp(log_var / 2) * eps]
    with [eps] a standard normal draw of shape [[batch_size, z_dim]]. *)
Definition _sample_z (args : tensor2 * tensor2) (draw : nat -> nat -> R) : tensor2 :=
  let (mu, log_var) := args in
  let batch_size := shape0 mu in
  let z_dim := shape1 mu in
  let eps := K.random_normal draw batch_size z_dim in
  K.add mu (K.mul (K.exp (K.div_scalar log_var 2)) eps).

(** [vae_loss] of [_loss_function]; [mu] and [log_var] are the encoder
    tensors [self.mu] and [self.log_var] of the batch.  The two local
    variables of the source are named definitions here. *)
Definition kl_loss (mu log_var : tensor2) : list R :=
  K.scale 0.5 (K.sum_axis1
    (K.sub (K.sub_scalar (K.add (K.exp log_var) (K.square mu)) 1) log_var)).

Definition recon_loss (y_true y_pred : tensor2) : list R :=
  K.scale 0.5 (K.sum_axis1 (K.square (K.sub y_true y_pred))).

Definition vae_loss (mu log_var : tensor2) (y_true y_pred : tensor2) : R :=
  K.mean (K.vadd (recon_loss y_true y_pred) (K.scale 0.001 (kl_loss mu log_var))).

(** The loss as the specification words it: per sample, half the sum over the
    [x_dim] features of the squared differences, plus 0.001 times half the sum
    over the [z_dim] latent dimensions of [exp(log_var) + mean^2 - 1 - log_var];
    then the mean over the batch. *)
Definition entry (m : tensor2) (i j : nat) : R := nth j (nth i m []) 0%R.

Definition sum_upto (n : nat) (f : nat -> R) : R := total (map f (seq 0 n)).

Definition spec_reconstruction (x_dim : nat) (y_true y_pred : tensor2) (i : nat) : R :=
  (sum_upto x_dim (fun j => (entry y_true i j - entry y_pred i j) ^ 2) / 2)%R.

Definition spec_kl (z_dim : nat) (mu log_var : tensor2) (i : nat) : R :=
  (sum_upto z_dim (fun k =>
     Rtrigo_def.exp (entry log_var i k) + entry mu i k ^ 2 - 1 - entry log_var i k) / 2)%R.

Definition spec_loss (n x_dim z_dim : nat) (mu log_var y_true y_pred : tensor2) : R :=
  (sum_upto n (fun i =>
     spec_reconstruction x_dim y_true y_pred i
     + 0.001 * spec_kl z_dim mu log_var i) / INR n)%R.

(* ================================================================== *)
(** * numpy arrays at run time *)

Inductive ndarray : Type :=
| Vec (v : list R)
| Mat (m : tensor2)
| Cube (c : list tensor2).

(** What [Model.predict] returns: one array for a model with one output, a
    Python list of arrays for a model with several. *)
Inductive prediction : Type :=
| Single (a : tensor2)
| Outputs (l : list tensor2).

Module np.
(** numpy's broadcasting along one axis: equal lengths pair up, a length of
    one is stretched, anything else is an error. *)
Definition broadcast {A B C} (f : A -> B -> result C)
           (a : list A) (b : list B) : result (list C) :=
  if length a =? length b then rmapM (fun p => f (fst p) (snd p)) (combine a b)
  else match a, b with
       | [x], _ => rmapM (fun y => f x y) b
       | _, [y] => rmapM (fun x => f x y) a
       | _, _ => Raise ValueError
       end.

Section Binop.
Variable f : R -> R -> R.
Definition op1 : list R -> list R -> result (list R) :=
  broadcast (fun x y => Ok (f x y)).
Definition op2 : tensor2 -> tensor2 -> result tensor2 := broadcast op1.
Definition op3 : list tensor2 -> list tensor2 -> result (list tensor2) :=
  broadcast op2.

(** The array of lower rank gets leading axes of length one. *)
Definition binop (a b : ndarray) : result ndarray :=
  match a, b with
  | Vec u, Vec v => rbind (op1 u v) (fun r => Ok (Vec r))
  | Vec u, Mat m => rbind (op2 [u] m) (fun r => Ok (Mat r))
  | Mat m, Vec v => rbind (op2 m [v]) (fun r => Ok (Mat r))
  | Mat m, Mat n => rbind (op2 m n) (fun r => Ok (Mat r))
  | Vec u, Cube c => rbind (op3 [[u]] c) (fun r => Ok (Cube r))
  | Cube c, Vec v => rbind (op3 c [[v]]) (fun r => Ok (Cube r))
  | Mat m, Cube c => rbind (op3 [m] c) (fun r => Ok (Cube r))
  | Cube c, Mat m => rbind (op3 c [m]) (fun r => Ok (Cube r))
  | Cube c, Cube d => rbind (op3 c d) (fun r => Ok (Cube r))
  end.
End Binop.

Definition add : ndarray -> ndarray -> result ndarray := binop Rplus.
Definition subtract : ndarray -> ndarray -> result ndarray := binop Rminus.

(** [a * c] for a Python float [c]. *)
Definition times (a : tensor2) (c : R) : tensor2 :=
  map (map (fun x => x * c)%R) a.

Definition asarray (p : prediction) : ndarray :=
  match p with
  | Single a => Mat a
  | Outputs l => Cube l
  end.

(** [m.mean(axis=0)]: the mean of every column. *)
Definition mean_axis0 (m : tensor2) : list R :=
  map (fun j => mean (map (fun row => nth j row 0%R) m)) (seq 0 (shape1 m)).

(** [numpy.average(a, axis=0)]: the first axis is averaged away.  (For a
    vector numpy gives a scalar, kept here as a vector of one entry.) *)
Definition average_axis0 (a : ndarray) : ndarray :=
  match a with
  | Vec v => Vec [mean v]
  | Mat m => Vec (mean_axis0 m)
  | Cube c =>
      Mat (map (fun i => mean_axis0 (map (fun m => nth i m []) c))
               (seq 0 (length (hd [] c))))
  end.

Definition zeros (rows cols : nat) : tensor2 := repeat (repeat 0%R cols) rows.

(** [numpy.linspace(0, 1, n)] *)
Definition linspace01 (n : nat) : list R :=
  map (fun i => (INR i / INR (n - 1))%R) (seq 0 n).

(** [m[ind, :]] *)
Definition take_rows (ind : list nat) (m : tensor2) : result tensor2 :=
  rmapM (fun i => match nth_error m i with
                  | Some row => Ok row
                  | None => Raise IndexError
                  end) ind.

(** [vectors[i, :] = vector]: the value is broadcast to the row. *)
Definition set_row (vectors : tensor2) (i : nat) (vector : tensor2)
  : result tensor2 :=
  match nth_error vectors i, vector with
  | Some old, [row] =>
      if length row =? length old then
        Ok (firstn i vectors ++ row :: skipn (S i) vectors)
      else Raise ValueError
  | Some _, _ => Raise ValueError
  | None, _ => Raise IndexError
  end.
End np.

(* ================================================================== *)
(** * Annotated data *)

(** The content of [AnnData.X]: a numpy array or a scipy sparse matrix (given
    by its dense content). *)
Inductive matrix_like : Type :=
| NdArray (m : tensor2)
| SparseMatrix (m : tensor2).

Module sparse.
Definition issparse (x : matrix_like) : bool :=
  match x with
  | SparseMatrix _ => true
  | NdArray _ => false
  end.
End sparse.

Definition content (x : matrix_like) : tensor2 :=
  match x with
  | NdArray m => m
  | SparseMatrix m => m
  end.

(** [x.A]: the dense array of a sparse matrix; a numpy array has no such
    attribute. *)
Definition dot_A (x : matrix_like) : result tensor2 :=
  match x with
  | SparseMatrix m => Ok m
  | NdArray _ => Raise (AttributeError "A")
  end.

(** [x[ind, :]] keeps the representation. *)
Definition index_rows (x : matrix_like) (ind : list nat) : result matrix_like :=
  match x with
  | NdArray m => rbind (np.take_rows ind m) (fun r => Ok (NdArray r))
  | SparseMatrix m => rbind (np.take_rows ind m) (fun r => Ok (SparseMatrix r))
  end.

Definition dict (V : Type) : Type := list (string * V).

(** [d[k]] *)
Fixpoint getitem {V} (d : dict V) (k : string) : result V :=
  match d with
  | [] => Raise (KeyError k)
  | (k', v) :: d' => if String.eqb k' k then Ok v else getitem d' k
  end.

Record AnnData : Type := {
  X : matrix_like;
  obs : dict (list string)   (* the columns of the [obs] data frame *)
}.

Definition n_obs (a : AnnData) : nat := shape0 (content (X a)).
Definition n_vars (a : AnnData) : nat := shape1 (content (X a)).

Fixpoint mask_filter {A} (mask : list bool) (l : list A) : list A :=
  match mask, l with
  | b :: mask', x :: l' => if b then x :: mask_filter mask' l' else mask_filter mask' l'
  | _, _ => []
  end.

(** [adata[mask, :]] *)
Definition select (a : AnnData) (mask : list bool) : AnnData :=
  {| X := match X a with
          | NdArray m => NdArray (mask_filter mask m)
          | SparseMatrix m => SparseMatrix (mask_filter mask m)
          end;
     obs := map (fun c => (fst c, mask_filter mask (snd c))) (obs a) |}.

(** [column == value] *)
Definition eq_mask (column : list string) (value : string) : list bool :=
  map (fun v => String.eqb v value) column.

(** [column.isin(values)] *)
Definition isin (column : list string) (values : list string) : list bool :=
  map (fun v => existsb (String.eqb v) values) column.

(** [os.path.join(a, b)] *)
Definition ends_with_slash (a : string) : bool :=
  match rev (list_ascii_of_string a) with
  | c :: _ => Ascii.eqb c "/"%char
  | [] => false
  end.

Definition os_path_join (a b : string) : string :=
  if String.prefix "/" b then b
  else if String.eqb a "" then b
  else if ends_with_slash a then (a ++ b)%string
  else (a ++ "/" ++ b)%string.

(** [path.split('/')] *)
Fixpoint split_slash (path : string) : list string :=
  match path with
  | EmptyString => [EmptyString]
  | String c rest =>
      if Ascii.eqb c "/"%char then EmptyString :: split_slash rest
      else match split_slash rest with
           | comp :: comps => String c comp :: comps
           | [] => [String c EmptyString]
           end
  end.

(** ['/'.join(comps)] *)
Fixpoint join_slash (comps : list string) : string :=
  match comps with
  | [] => EmptyString
  | [comp] => comp
  | comp :: comps' => (comp ++ "/" ++ join_slash comps')%string
  end.

(** The loop of [posixpath.normpath] over the components; [new_comps] is
    kept with its last element first. *)
Fixpoint norm_comps (initial_slashes : nat) (comps new_comps : list string)
  : list string :=
  match comps with
  | [] => rev new_comps
  | comp :: rest =>
      if String.eqb comp "" || String.eqb comp "." then
        norm_comps initial_slashes rest new_comps
      else if negb (String.eqb comp "..")
              || ((initial_slashes =? 0)
                  && match new_comps with [] => true | _ => false end)
              || match new_comps with
                 | last :: _ => String.eqb last ".."
                 | [] => false
                 end
      then norm_comps initial_slashes rest (comp :: new_comps)
      else norm_comps initial_slashes rest (tl new_comps)
  end.

(** [os.path.normpath(path)] *)
Definition os_path_normpath (path : string) : string :=
  if String.eqb path "" then "."%string
  else
    let initial_slashes :=
      if String.prefix "/" path then
        if String.prefix "//" path && negb (String.prefix "///" path)
        then 2 else 1
      else 0 in
    let path' :=
      (String.concat ""%string (repeat "/"%string initial_slashes)
       ++ join_slash (norm_comps initial_slashes (split_slash path) []))%string
    in
    if String.eqb path' "" then "."%string else path'.

(* ================================================================== *)
(** * The collaborators

    What the class takes from Keras, TensorFlow, numpy's random generator and
    [scgen.models.util].  A random operation receives the index of its draw.
    What the class raises itself is modelled, and so is what Python, numpy,
    Keras and TensorFlow raise on the values the class hands them: a missing
    attribute, key or index, shapes that do not fit, a batch without rows, a
    missing file or checkpoint, a log file that cannot be opened, a model
    fitted before it was compiled.  The other calls of the collaborators
    are taken to return. *)

(** [self.sess].  Keras evaluates and fits its models in a session of its own,
    so of the variables of this one only the step counter is kept. *)
Record Session : Type := {
  global_step : Z
}.

Class Backend : Type := {
  (** the values of all layer weights of the network *)
  weights : Type;
  (** freshly initialised weights of a network of the given [x_dim], [z_dim] *)
  glorot_normal : nat -> nat -> nat -> weights;
  (** the encoder layers in evaluation mode: [(mu, log_var)] of a batch *)
  encoder_forward : weights -> tensor2 -> tensor2 * tensor2;
  (** the decoder layers in evaluation mode *)
  decoder_forward : weights -> tensor2 -> tensor2;
  (** entry [(i, j)] of a standard normal draw *)
  random_normal : nat -> nat -> nat -> R;
  (** [numpy.random.choice(range(n), size=k, replace=False)] *)
  random_choice : nat -> nat -> nat -> list nat;
  (** the permutation [Model.fit] applies to the samples before an epoch *)
  random_permutation : nat -> tensor2 -> tensor2;
  (** one pass of the optimiser over all mini-batches of the given size *)
  train_on_epoch : weights -> tensor2 -> nat -> weights;
  (** the loss on the validation set *)
  evaluate : weights -> tensor2 -> R;
  (** the decision of [EarlyStopping(patience, monitor='val_loss', min_delta)]
      after an epoch, from the validation losses so far *)
  early_stopping : nat -> R -> list R -> bool;
  (** [self.saver.restore(self.sess, path)]: the session restored from the
      checkpoint at [path], if there is one *)
  saver_restore : string -> Session -> option Session;
  (** whether the [CSVLogger] callback can open its log file when the
      training begins (its directory must exist) *)
  csv_logger_opens : string -> bool;
  (** [scgen.models.util] *)
  balancer : AnnData -> AnnData;
  extractor : AnnData -> string -> dict string -> list AnnData;
  shuffle_data : nat -> AnnData -> AnnData
}.

(* ================================================================== *)
(** * The object and the world around it *)

(** The outputs a [keras.Model] was built with. *)
Inductive outputs : Type :=
| Out_x_hat            (* [outputs=self.x_hat], the model named "VAE" *)
| Out_mu_log_var_z     (* [outputs=[self.mu, self.log_var, self.z]], "encoder" *)
| Out_Z.               (* [outputs=vae_model.get_layer('Z').output] *)

Record Model : Type := {
  model_outputs : outputs;
  compiled : bool
}.

Inductive event : Type :=
| LogInfo (msg : string)
| CallBalancer
| CallExtractor
| RandomChoice (n size : nat)
| EncoderPredict (rows : nat)
| DecoderPredict (rows : nat)
| ShuffleData
| Fit (epochs batch_size : nat) (validation shuffle : bool)
| EpochShuffle (epoch : nat)
| Epoch (epoch : nat)
| Save (path : string)
| Load (path : string).

Section Object.
Context {B : Backend}.

(** A saved model: which model it was, and the weights of its layers.  It is
    taken to be a model of a network of the dimensions of the object that
    loads it. *)
Record h5 : Type := {
  h5_outputs : outputs;
  h5_weights : weights
}.

(** The saved models, under the paths they were written to, the newest
    first.  A path is resolved as [os.path.normpath] does, so that
    ['vae.h5'], ['./vae.h5'] and ['a/../vae.h5'] name one file; absolute
    names of the working directory and links are not resolved. *)
Definition filesystem : Type := dict h5.

Fixpoint lookup (fs : filesystem) (path : string) : option h5 :=
  match fs with
  | [] => None
  | (p, a) :: fs' =>
      if String.eqb (os_path_normpath p) (os_path_normpath path) then Some a
      else lookup fs' path
  end.

(** The attributes of a [VAEArithKeras] object.  [vae_model] and
    [encoder_model] are built over the same layer objects, whose weights
    are [layers]; [decoder_model] owns its layers, and the attribute does
    not exist until something assigns it. *)
Record VAEArithKeras : Type := {
  x_dim : nat;
  z_dim : nat;
  learning_rate : R;
  dropout_rate : R;
  model_to_use : string;
  sess : Session;
  layers : weights;
  vae_model : Model;
  encoder_model : Model;
  decoder_model : option weights
}.

Record State : Type := {
  self : VAEArithKeras;
  fs : filesystem;
  draws : nat;          (* random draws made so far *)
  trace : list event    (* calls made so far, oldest first *)
}.

Definition Py (A : Type) : Type := M State A.

Definition emit (e : event) : Py unit :=
  modify (fun s => {| self := self s; fs := fs s; draws := draws s;
                      trace := trace s ++ [e] |}).

Definition fresh_draw : Py nat :=
  fun s => (Ok (draws s),
            {| self := self s; fs := fs s; draws := S (draws s);
               trace := trace s |}).

Definition update_self (f : VAEArithKeras -> VAEArithKeras) : Py unit :=
  modify (fun s => {| self := f (self s); fs := fs s; draws := draws s;
                      trace := trace s |}).

Definition write_file (path : string) (a : h5) : Py unit :=
  modify (fun s => {| self := self s; fs := (path, a) :: fs s;
                      draws := draws s; trace := trace s |}).

Definition set_sess (v : Session) (o : VAEArithKeras) : VAEArithKeras :=
  {| x_dim := x_dim o; z_dim := z_dim o; learning_rate := learning_rate o;
     dropout_rate := dropout_rate o; model_to_use := model_to_use o;
     sess := v; layers := layers o; vae_model := vae_model o;
     encoder_model := encoder_model o; decoder_model := decoder_model o |}.

Definition set_layers (w : weights) (o : VAEArithKeras) : VAEArithKeras :=
  {| x_dim := x_dim o; z_dim := z_dim o; learning_rate := learning_rate o;
     dropout_rate := dropout_rate o; model_to_use := model_to_use o;
     sess := sess o; layers := w; vae_model := vae_model o;
     encoder_model := encoder_model o; decoder_model := decoder_model o |}.

Definition set_decoder_model (w : weights) (o : VAEArithKeras) : VAEArithKeras :=
  {| x_dim := x_dim o; z_dim := z_dim o; learning_rate := learning_rate o;
     dropout_rate := dropout_rate o; model_to_use := model_to_use o;
     sess := sess o; layers := layers o; vae_model := vae_model o;
     encoder_model := encoder_model o; decoder_model := Some w |}.

(** The two assignments that open [restore_model]. *)
Definition set_loaded (a : h5) (o : VAEArithKeras) : VAEArithKeras :=
  {| x_dim := x_dim o; z_dim := z_dim o; learning_rate := learning_rate o;
     dropout_rate := dropout_rate o; model_to_use := model_to_use o;
     sess := sess o; layers := h5_weights a;
     vae_model := {| model_outputs := h5_outputs a; compiled := false |};
     encoder_model := {| model_outputs := Out_Z; compiled := false |};
     decoder_model := decoder_model o |}.

(** ** Construction *)

Record kwargs : Type := {
  kw_learning_rate : option R;
  kw_dropout_rate : option R;
  kw_model_path : option string
}.

Definition kwargs_get {A} (v : option A) (default : A) : A :=
  match v with
  | Some a => a
  | None => default
  end.

(** [__init__], [_create_network] and [_loss_function]: the network is
    built with fresh weights, the encoder model gets the three outputs
    [mu], [log_var] and [z], only the VAE model is compiled, and no
    [decoder_model] is assigned.  [fs0] and [rng0] are the files present
    and the state of the random generator when the object is made. *)
Definition __init__ (x_dimension z_dimension : nat) (kw : kwargs)
           (fs0 : filesystem) (rng0 : nat) : State :=
  {| self :=
       {| x_dim := x_dimension;
          z_dim := z_dimension;
          learning_rate := kwargs_get (kw_learning_rate kw) 0.001%R;
          dropout_rate := kwargs_get (kw_dropout_rate kw) 0.2%R;
          model_to_use := kwargs_get (kw_model_path kw) "../models/scgen"%string;
          sess := {| global_step := 0 |};
          layers := glorot_normal x_dimension z_dimension rng0;
          vae_model := {| model_outputs := Out_x_hat; compiled := true |};
          encoder_model :=
            {| model_outputs := Out_mu_log_var_z; compiled := false |};
          decoder_model := None |};
     fs := fs0;
     draws := S rng0;
     trace := [] |}.

(** ** Evaluation of a Keras model *)

(** Keras checks a batch against the input layer: it must have rows, and
    every row the width of the layer. *)
Definition widths_are (d : nat) (x : tensor2) : bool :=
  match x with
  | [] => false
  | _ => forallb (fun row => length row =? d) x
  end.

(** [model.predict(x)] for a model over the network with input width
    [input_dim]: a batch without rows or of another width is rejected; the
    layers run in
    evaluation mode; the [Z] layer samples, whatever the mode. *)
Definition keras_predict (m : Model) (w : weights) (input_dim : nat)
           (x : tensor2) : Py prediction :=
  (if widths_are input_dim x then
     k <- fresh_draw;;
     let (mu, log_var) := encoder_forward w x in
     let z := _sample_z (mu, log_var) (random_normal k) in
     ret match model_outputs m with
         | Out_mu_log_var_z => Outputs [mu; log_var; z]
         | Out_Z => Single z
         | Out_x_hat => Single (decoder_forward w z)
         end
   else raise ValueError)%py.

Definition to_latent (data : matrix_like) : Py prediction :=
  (s <- get;;
   emit (EncoderPredict (shape0 (content data)));;;
   latent <- keras_predict (encoder_model (self s)) (layers (self s))
                           (x_dim (self s)) (content data);;
   ret latent)%py.

Definition _avg_vector (data : matrix_like) : Py ndarray :=
  (latent <- to_latent data;;
   let latent_avg := np.average_axis0 (np.asarray latent) in
   ret latent_avg)%py.

(** [use_data] is a parameter of the source that its body never reads. *)
Definition reconstruct (data : ndarray) (use_data : bool) : Py tensor2 :=
  (s <- get;;
   match decoder_model (self s) with
   | None => raise (AttributeError "decoder_model")
   | Some w =>
       match data with
       | Mat m =>
           emit (DecoderPredict (shape0 m));;;
           if widths_are (z_dim (self s)) m then
             let rec_data := decoder_forward w m in
             ret rec_data
           else raise ValueError
       | _ => raise ValueError   (* the decoder input has two axes *)
       end
   end)%py.

(** ** Linear interpolation *)

(** [v.reshape((1, n))] *)
Definition reshape_row (v : list R) (n : nat) : result tensor2 :=
  if length v =? n then Ok [v] else Raise ValueError.

(** The two arms of each sparsity test of [linear_interpolation], as the
    source writes them:
    [adata.X.A.mean(axis=0).reshape((1, adata.shape[1]))]. *)
Definition average_if_sparse (adata : AnnData) : result tensor2 :=
  rbind (dot_A (X adata)) (fun dense =>
  reshape_row (np.mean_axis0 dense) (n_vars adata)).

Definition average_otherwise (adata : AnnData) : result tensor2 :=
  rbind (dot_A (X adata)) (fun dense =>
  reshape_row (np.mean_axis0 dense) (n_vars adata)).

(** [start.shape[1]]: a Python list has no [shape]. *)
Definition shape_1 (p : prediction) : result nat :=
  match p with
  | Single a => Ok (shape1 a)
  | Outputs _ => Raise (AttributeError "shape")
  end.

(** [p * c] for a Python float [c]: a list cannot be multiplied by it. *)
Definition times_float (p : prediction) (c : R) : result ndarray :=
  match p with
  | Single a => Ok (Mat (np.times a c))
  | Outputs _ => Raise TypeError
  end.

(** The loop over [enumerate(alpha_values)], from index [i] on. *)
Fixpoint interpolate (start end_ : prediction) (alpha_values : list R)
         (i : nat) (vectors : tensor2) : result tensor2 :=
  match alpha_values with
  | [] => Ok vectors
  | alpha :: rest =>
      rbind (times_float start (1 - alpha)) (fun a =>
      rbind (times_float end_ alpha) (fun b =>
      rbind (np.add a b) (fun vector =>
      rbind (match vector with
             | Mat v => np.set_row vectors i v
             | _ => Raise ValueError
             end) (fun vectors' =>
      interpolate start end_ rest (S i) vectors'))))
  end.

(** [linear_interpolation], with the sparsity test as a parameter. *)
Definition linear_interpolation_with (issparse : matrix_like -> bool)
           (source_adata dest_adata : AnnData) (n_steps : nat) : Py tensor2 :=
  (source_average <-
     lift (if issparse (X source_adata)
           then average_if_sparse source_adata
           else average_otherwise source_adata);;
   dest_average <-
     lift (if issparse (X dest_adata)
           then average_if_sparse dest_adata
           else average_otherwise dest_adata);;
   start <- to_latent (NdArray source_average);;
   end_ <- to_latent (NdArray dest_average);;
   width <- lift (shape_1 start);;
   let vectors := np.zeros n_steps width in
   let alpha_values := np.linspace01 n_steps in
   vectors <- lift (interpolate start end_ alpha_values 0 vectors);;
   interpolation <- reconstruct (Mat vectors) true;;
   ret interpolation)%py.

Definition linear_interpolation : AnnData -> AnnData -> nat -> Py tensor2 :=
  linear_interpolation_with sparse.issparse.

(** ** Prediction *)

(** The [obs_key] argument: a string or a dictionary. *)
Inductive obs_key_t : Type :=
| ObsStr (s : string)
| ObsDict (d : dict (list string)).

Definition is_all (obs_key : obs_key_t) : bool :=
  match obs_key with
  | ObsStr s => String.eqb s "all"
  | ObsDict _ => false
  end.

(** [list(obs_key.keys())] *)
Definition keys (obs_key : obs_key_t) : result (list string) :=
  match obs_key with
  | ObsStr _ => Raise (AttributeError "keys")
  | ObsDict d => Ok (map fst d)
  end.

(** [obs_key[key]] *)
Definition obs_key_getitem (obs_key : obs_key_t) (key : string)
  : result (list string) :=
  match obs_key with
  | ObsStr _ => Raise TypeError
  | ObsDict d => getitem d key
  end.

(** [l[i]] *)
Definition item {A} (l : list A) (i : nat) : result A :=
  match nth_error l i with
  | Some a => Ok a
  | None => Raise IndexError
  end.

Definition call_balancer (a : AnnData) : Py AnnData :=
  (emit CallBalancer;;; ret (balancer a))%py.

Definition call_extractor (a : AnnData) (celltype : string)
           (conditions : dict string) : Py (list AnnData) :=
  (emit CallExtractor;;; ret (extractor a celltype conditions))%py.

(** [numpy.random.choice(range(n), size=size, replace=False)]; the size
    asked for never exceeds [n] where the source calls it. *)
Definition choice (n size : nat) : Py (list nat) :=
  (k <- fresh_draw;;
   emit (RandomChoice n size);;;
   ret (random_choice k n size))%py.

(** [adata[adata.obs[column] == conditions[name], :]] *)
Definition with_condition (adata : AnnData) (conditions : dict string)
           (name : string) : result AnnData :=
  rbind (getitem (obs adata) "condition") (fun column =>
  rbind (getitem conditions name) (fun value =>
  Ok (select adata (eq_mask column value)))).

(** Lines 338-351: the control and the stimulated cells. *)
Definition select_subsets (adata : AnnData) (conditions : dict string)
           (obs_key : obs_key_t) : Py (AnnData * AnnData) :=
  (if is_all obs_key then
     ctrl_x <- lift (with_condition adata conditions "ctrl");;
     stim_x <- lift (with_condition adata conditions "stim");;
     ctrl_x <- call_balancer ctrl_x;;
     stim_x <- call_balancer stim_x;;
     ret (ctrl_x, stim_x)
   else
     ks <- lift (keys obs_key);;
     key <- lift (item ks 0);;
     values <- lift (obs_key_getitem obs_key key);;
     column <- lift (getitem (obs adata) key);;
     let subset := select adata (isin column values) in
     ctrl_x <- lift (with_condition subset conditions "ctrl");;
     stim_x <- lift (with_condition subset conditions "stim");;
     if 1 <? length values then
       ctrl_x <- call_balancer ctrl_x;;
       stim_x <- call_balancer stim_x;;
       ret (ctrl_x, stim_x)
     else ret (ctrl_x, stim_x))%py.

Definition is_not_None {A} (v : option A) : bool :=
  match v with
  | Some _ => true
  | None => false
  end.

Definition is_None {A} (v : option A) : bool := negb (is_not_None v).

Definition both_given : exn :=
  Exception "Please provide either a cell type or adata not both!".
Definition none_given : exn :=
  Exception "Please provide a cell type name or adata for your unperturbed cells".

(** Lines 352-355. *)
Definition check_target (adata_to_predict : option AnnData)
           (celltype_to_predict : option string) : Py unit :=
  ((if is_not_None celltype_to_predict && is_not_None adata_to_predict
    then raise both_given else ret tt);;;
   (if is_None celltype_to_predict && is_None adata_to_predict
    then raise none_given else ret tt))%py.

(** Lines 356-376. *)
Definition predict_target (adata : AnnData) (conditions : dict string)
           (adata_to_predict : option AnnData)
           (celltype_to_predict : option string)
           (ctrl_x stim_x : AnnData) : Py (tensor2 * ndarray) :=
  (ctrl_pred <-
     match celltype_to_predict with
     | Some celltype =>
         parts <- call_extractor adata celltype conditions;;
         part <- lift (item parts 1);;
         ret (Some part)
     | None => ret adata_to_predict
     end;;
   let eq := Nat.min (shape0 (content (X ctrl_x))) (shape0 (content (X stim_x))) in
   cd_ind <- choice (n_obs ctrl_x) eq;;
   stim_ind <- choice (n_obs stim_x) eq;;
   ' (latent_ctrl, latent_sim) <-
     (if sparse.issparse (X ctrl_x) && sparse.issparse (X stim_x) then
        dense <- lift (dot_A (X ctrl_x));;
        rows <- lift (np.take_rows cd_ind dense);;
        latent_ctrl <- _avg_vector (NdArray rows);;
        dense <- lift (dot_A (X stim_x));;
        rows <- lift (np.take_rows stim_ind dense);;
        latent_sim <- _avg_vector (NdArray rows);;
        ret (latent_ctrl, latent_sim)
      else
        rows <- lift (index_rows (X ctrl_x) cd_ind);;
        latent_ctrl <- _avg_vector rows;;
        rows <- lift (index_rows (X stim_x) stim_ind);;
        latent_sim <- _avg_vector rows;;
        ret (latent_ctrl, latent_sim));;
   delta <- lift (np.subtract latent_sim latent_ctrl);;
   latent_cd <-
     match ctrl_pred with
     | None => raise (AttributeError "X")   (* [None.X]; excluded by the checks *)
     | Some ctrl_pred =>
         if sparse.issparse (X ctrl_pred) then
           dense <- lift (dot_A (X ctrl_pred));;
           to_latent (NdArray dense)
         else to_latent (X ctrl_pred)
     end;;
   stim_pred <- lift (np.add delta (np.asarray latent_cd));;
   predicted_cells <- reconstruct stim_pred true;;
   ret (predicted_cells, delta))%py.

Definition predict (adata : AnnData) (conditions : dict string)
           (adata_to_predict : option AnnData)
           (celltype_to_predict : option string)
           (obs_key : obs_key_t) : Py (tensor2 * ndarray) :=
  (' (ctrl_x, stim_x) <- select_subsets adata conditions obs_key;;
   check_target adata_to_predict celltype_to_predict;;;
   predict_target adata conditions adata_to_predict celltype_to_predict
                  ctrl_x stim_x)%py.

(** ** Restoring *)

(** [restore_model]: the VAE is loaded from [model_to_use/vae.h5], the
    encoder model becomes the model with the single output [Z], a decoder
    model with fresh layers is assigned, and the weights of the layers from
    index 11 on are copied into it.  A loaded model that is not the full
    VAE has only the twelve layers up to [Z], so the copy fails at index
    12; a missing file fails before anything is assigned. *)
Definition restore_model : Py unit :=
  (s <- get;;
   let path := os_path_join (model_to_use (self s)) "vae.h5" in
   match lookup (fs s) path with
   | None => raise (OSError path)
   | Some a =>
       emit (Load path);;;
       update_self (set_loaded a);;;
       k <- fresh_draw;;
       update_self (set_decoder_model
                      (glorot_normal (x_dim (self s)) (z_dim (self s)) k));;;
       match h5_outputs a with
       | Out_x_hat => update_self (set_decoder_model (h5_weights a))
       | _ => raise IndexError
       end
   end)%py.

(** ** Training *)

(** [Model.fit]: the loop over the epochs.  With [shuffle] set the samples
    are permuted anew before every epoch; with validation data the
    early-stopping callback is asked after every epoch, without it the
    monitored quantity is missing and the callback never stops the run. *)
Fixpoint fit_loop (x : tensor2) (validation_data : option tensor2)
         (batch_size : nat) (shuffle : bool) (patience : nat) (min_delta : R)
         (epochs epoch : nat) (history : list R) : Py unit :=
  match epochs with
  | 0 => ret tt
  | S epochs' =>
      (batch <- (if shuffle then
                   k <- fresh_draw;;
                   emit (EpochShuffle epoch);;;
                   ret (random_permutation k x)
                 else ret x);;
       emit (Epoch epoch);;;
       update_self (fun o => set_layers (train_on_epoch (layers o) batch batch_size) o);;;
       match validation_data with
       | Some v =>
           s <- get;;
           let history' := history ++ [evaluate (layers (self s)) v] in
           if early_stopping patience min_delta history' then ret tt
           else fit_loop x validation_data batch_size shuffle patience
                         min_delta epochs' (S epoch) history'
       | None =>
           fit_loop x validation_data batch_size shuffle patience
                    min_delta epochs' (S epoch) history
       end)%py
  end.

(** [self.vae_model.fit(...)] with the callbacks of [train]: a model that
    was not compiled cannot be fitted; the training and the validation data
    are checked against the input layer; when the training begins the
    [CSVLogger] opens its log file. *)
Definition vae_model_fit (x : tensor2) (validation_data : option tensor2)
           (epochs batch_size : nat) (shuffle : bool)
           (patience : nat) (min_delta : R) (csv_filename : string)
  : Py unit :=
  (s <- get;;
   if compiled (vae_model (self s)) then
     emit (Fit epochs batch_size (is_not_None validation_data) shuffle);;;
     (if widths_are (x_dim (self s)) x then ret tt else raise ValueError);;;
     (match validation_data with
      | Some v =>
          if widths_are (x_dim (self s)) v then ret tt else raise ValueError
      | None => ret tt
      end);;;
     (if csv_logger_opens csv_filename then ret tt
      else raise (OSError csv_filename));;;
     fit_loop x validation_data batch_size shuffle patience min_delta
              epochs 0 []
   else raise RuntimeError)%py.

(** [model.save(path, overwrite=True)] *)
Definition model_save (m : Model) (path : string) : Py unit :=
  (s <- get;;
   emit (Save path);;;
   write_file path {| h5_outputs := model_outputs m;
                      h5_weights := layers (self s) |})%py.

Definition validation_missing : exn :=
  Exception "valid_data is None but use_validation is True.".

Definition train (train_data : AnnData) (use_validation : bool)
           (valid_data : option AnnData) (n_epochs batch_size : nat)
           (early_stop_limit : nat) (threshold : R)
           (initial_run shuffle : bool) : Py unit :=
  ((if initial_run then
      emit (LogInfo "----Training----");;;
      update_self (set_sess {| global_step := 0 |})
    else ret tt);;;
   (if negb initial_run then
      s <- get;;
      match saver_restore (model_to_use (self s)) (sess (self s)) with
      | Some restored => update_self (set_sess restored)
      | None => raise ValueError   (* no checkpoint at [model_to_use] *)
      end
    else ret tt);;;
   (if use_validation && is_None valid_data
    then raise validation_missing else ret tt);;;
   train_data <- (if shuffle then
                    k <- fresh_draw;;
                    emit ShuffleData;;;
                    ret (shuffle_data k train_data)
                  else ret train_data);;
   (if use_validation then
      match valid_data with
      | Some v =>
          vae_model_fit (content (X train_data)) (Some (content (X v)))
                        n_epochs batch_size shuffle early_stop_limit threshold
                        "./results/csv_logger.log"
      | None => raise (AttributeError "X")  (* [None.X]; excluded by the check *)
      end
    else
      vae_model_fit (content (X train_data)) None
                    n_epochs batch_size shuffle early_stop_limit threshold
                    "./results/csv_logger.log");;;
   s <- get;;
   model_save (vae_model (self s)) "vae.h5";;;
   model_save (encoder_model (self s)) "encoder.h5";;;
   emit (LogInfo ("Models are saved in file: " ++ model_to_use (self s)
                  ++ ". Training finished")))%py.

(** ** Objects on which [restore_model] was never called

    The states reached from a construction by calls of the other
    methods, whatever their arguments and outcomes. *)
Inductive unrestored : State -> Prop :=
| unrestored_init : forall x z kw fs0 rng0,
    unrestored (__init__ x z kw fs0 rng0)
| unrestored_train : forall s td uv vd ne bs esl th ir sh,
    unrestored s -> unrestored (snd (train td uv vd ne bs esl th ir sh s))
| unrestored_to_latent : forall s data,
    unrestored s -> unrestored (snd (to_latent data s))
| unrestored_avg_vector : forall s data,
    unrestored s -> unrestored (snd (_avg_vector data s))
| unrestored_reconstruct : forall s data use_data,
    unrestored s -> unrestored (snd (reconstruct data use_data s))
| unrestored_linear_interpolation : forall s src dst n,
    unrestored s -> unrestored (snd (linear_interpolation src dst n s))
| unrestored_predict : forall s adata conds atp ctp ok,
    unrestored s -> unrestored (snd (predict adata conds atp ctp ok s)).

(** The number of permutations of the training samples in a trace. *)
Definition is_shuffle (e : event) : bool :=
  match e with
  | ShuffleData | EpochShuffle _ => true
  | _ => false
  end.

Definition is_epoch (e : event) : bool :=
  match e with
  | Epoch _ => true
  | _ => false
  end.

Definition shuffles (t : list event) : nat := length (filter is_shuffle t).
Definition epochs_run (t : list event) : nat := length (filter is_epoch t).
End Object.

(* ================================================================== *)
(** * A small back end, to run the methods on

    The network of this back end maps every sample to the zero vector (mean
    and log-variance alike), its weights record the two dimensions, the
    [k]-th normal draw is the constant [k], [random_choice] takes the first
    rows, and the helpers of [scgen.models.util] leave the data as they are;
    early stopping fires once more validation losses than the patience have
    been seen; there is no checkpoint to restore a session from (the class
    never writes one), and the directory of the training log exists. *)
Definition small_backend : Backend :=
  {| weights := nat * nat;
     glorot_normal := fun x z _ => (x, z);
     encoder_forward := fun w x =>
       (map (fun _ => repeat 0%R (snd w)) x, map (fun _ => repeat 0%R (snd w)) x);
     decoder_forward := fun w z => map (fun _ => repeat 0%R (fst w)) z;
     random_normal := fun k _ _ => INR k;
     random_choice := fun _ _ size => seq 0 size;
     random_permutation := fun _ x => rev x;
     train_on_epoch := fun w _ _ => w;
     evaluate := fun _ _ => 0%R;
     early_stopping := fun patience _ history => patience <? length history;
     saver_restore := fun _ _ => None;
     csv_logger_opens := fun _ => true;
     balancer := fun a => a;
     extractor := fun a _ _ => [a; a];
     shuffle_data := fun _ a => a |}.

(** The keyword arguments of the examples in the docstrings:
    [model_path="./models/test"]. *)
Definition docstring_kwargs : kwargs :=
  {| kw_learning_rate := None; kw_dropout_rate := None;
     kw_model_path := Some "./models/test"%string |}.

(** Four cells with three genes, two of them control and two stimulated. *)
Definition four_cells : AnnData :=
  {| X := NdArray [[1; 2; 3]; [4; 5; 6]; [7; 8; 9]; [10; 11; 12]]%R;
     obs := [("condition", ["control"; "control"; "stimulated"; "stimulated"]);
             ("cell_type", ["CD4T"; "CD8T"; "CD4T"; "CD8T"])]%string |}.

Definition four_cells_sparse : AnnData :=
  {| X := SparseMatrix (content (X four_cells)); obs := obs four_cells |}.

(** Two unperturbed cells to predict. *)
Definition two_cells : AnnData :=
  {| X := NdArray [[1; 2; 3]; [4; 5; 6]]%R;
     obs := [("condition", ["control"; "control"]);
             ("cell_type", ["CD4T"; "CD4T"])]%string |}.

Definition ctrl_stim : dict string :=
  [("ctrl", "control"); ("stim", "stimulated")]%string.

(** An object constructed as in the docstring examples; the same object
    after [train] (two epochs as in the examples, here without validation
    data); and an object constructed where a saved VAE is present at the
    configured path, after [restore_model]. *)
Definition fresh_object : @State small_backend :=
  @__init__ small_backend 3 2 docstring_kwargs [] 0.

Definition trained_object : @State small_backend :=
  snd (@train small_backend four_cells false None 2 32 20 0.0025%R true true
              fresh_object).

Definition saved_vae : @filesystem small_backend :=
  [("./models/test/vae.h5"%string,
    {| h5_outputs := Out_x_hat; h5_weights := (3, 2) : @weights small_backend |})].

Definition restored_object : @State small_backend :=
  snd (@restore_model small_backend
         (@__init__ small_backend 3 2 docstring_kwargs saved_vae 0)).

(** The events of the epochs [start], ..., [start + k - 1] of a run of
    [Model.fit]: with [shuffle] set, a permutation of the samples precedes
    every epoch. *)
Definition fit_events (shuffle : bool) (start k : nat) : list event :=
  flat_map (fun i => (if shuffle then [EpochShuffle i] else []) ++ [Epoch i])
           (seq start k).

(** The network of an object maps a batch of shape [[n, x_dim]] to means and
    log-variances of shape [[n, z_dim]]. *)
Definition encoder_shaped {B : Backend} (o : VAEArithKeras) : Prop :=
  forall n x, has_shape n (x_dim o) x ->
    has_shape n (z_dim o) (fst (encoder_forward (layers o) x))
    /\ has_shape n (z_dim o) (snd (encoder_forward (layers o) x)).

(* ================================================================== *)
(** * Properties of computations *)

Section Properties.
Context {B : Backend}.

(** What a computation leaves unchanged. *)
Definition preserves {A X} (p : State -> A) (m : Py X) : Prop :=
  forall s, p (snd (m s)) = p s.

(** Which exceptions a computation can raise. *)
Definition rraises_only {X} (Q : exn -> Prop) (r : result X) : Prop :=
  forall e, r = Raise e -> Q e.

Definition raises_only {X} (Q : exn -> Prop) (m : Py X) : Prop :=
  forall s, rraises_only Q (fst (m s)).

(** When a computation cannot return. *)
Definition fails_when {X} (P : State -> Prop) (m : Py X) : Prop :=
  forall s, P s -> exists e, fst (m s) = Raise e.

Definition stable {X} (P : State -> Prop) (m : Py X) : Prop :=
  forall s, P s -> P (snd (m s)).

(** The object has no attribute [decoder_model]. *)
Definition no_decoder (s : State) : Prop := decoder_model (self s) = None.
End Properties.

(** The two configuration errors are [Exception]s; nothing else in
    [predict] raises that class. *)
Definition not_Exception (e : exn) : Prop :=
  match e with
  | Exception _ => False
  | _ => True
  end.

Definition config_error {X} (r : result X) : Prop :=
  r = Raise both_given \/ r = Raise none_given.

(** The latent point between [start] and [end_] at [alpha]:
    [start * (1 - alpha) + end_ * alpha], entry by entry. *)
Definition interpolated (start end_ : list R) (alpha : R) : list R :=
  map2 (fun a b => (a * (1 - alpha) + b * alpha)%R) start end_.




(** The rows of [m] at the indices [ind]. *)
Definition rows_at (ind : list nat) (m : tensor2) : tensor2 :=
  map (fun i => nth i m []) ind.

(** The latent sampled for the batch [x] with the weights of the object [o],
    at the draw [k] of the random generator. *)
Definition latent_sample {B : Backend} (o : VAEArithKeras) (k : nat)
           (x : tensor2) : tensor2 :=
  _sample_z (encoder_forward (layers o) x) (random_normal k).

(** Every row of [z] moved by [delta]. *)
Definition shifted (delta : list R) (z : tensor2) : tensor2 :=
  map (map2 Rplus delta) z.

(** [numpy.random.choice(range(n), size, replace=False)] gives [size]
    indices below [n]. *)
Definition choice_in_range {B : Backend} : Prop :=
  forall k n size, size <= n ->
    length (random_choice k n size) = size
    /\ Forall (fun i => i < n) (random_choice k n size).

(** A computation that assigns no attribute of the object and writes no
    file, whether it returns or raises. *)
Definition read_only {B : Backend} {X} (m : Py X) : Prop :=
  forall s, self (snd (m s)) = self s /\ fs (snd (m s)) = fs s.

(* ================================================================== *)
(** * Sums and entries *)

Section Sums.
Local Open Scope R_scope.

Lemma sum_upto_ext (n : nat) (f g : nat -> R) :
  (forall i, (i < n)%nat -> f i = g i) -> sum_upto n f = sum_upto n g.
Proof.
  intros H. unfold sum_upto. f_equal. apply map_ext_in.
  intros i Hi. apply in_seq in Hi. apply H. lia.
Qed.

Lemma sum_upto_S (n : nat) (f : nat -> R) :
  sum_upto (S n) f = f 0%nat + sum_upto n (fun i => f (S i)).
Proof.
  unfold sum_upto. cbn [seq map total fold_right].
  now rewrite <- seq_shift, map_map.
Qed.

Lemma total_nth (l : list R) :
  total l = sum_upto (length l) (fun i => nth i l 0).
Proof.
  induction l as [|x l IH]; [reflexivity|].
  cbn [length]. rewrite sum_upto_S. cbn [nth total fold_right].
  fold (total l). now rewrite IH.
Qed.

Lemma total_map_nth {A} (d : A) (f : A -> R) (l : list A) :
  total (map f l) = sum_upto (length l) (fun i => f (nth i l d)).
Proof.
  rewrite total_nth, length_map. apply sum_upto_ext. intros i Hi.
  rewrite (nth_indep _ 0 (f d)) by now rewrite length_map.
  apply map_nth.
Qed.

Lemma map2_length {A B C} (f : A -> B -> C) (a : list A) (b : list B) :
  length a = length b -> length (map2 f a b) = length a.
Proof.
  revert b. induction a as [|x a IH]; intros [|y b] H; cbn in *; try lia.
  now rewrite IH by lia.
Qed.

Lemma map2_nth {A B C} (f : A -> B -> C) (a : list A) (b : list B)
      (da : A) (db : B) (dc : C) (i : nat) :
  length a = length b -> (i < length a)%nat ->
  nth i (map2 f a b) dc = f (nth i a da) (nth i b db).
Proof.
  revert b i. induction a as [|x a IH]; intros [|y b] i H Hi; cbn in *; try lia.
  destruct i as [|i]; [reflexivity|]. apply IH; lia.
Qed.

Lemma has_shape_row (n d : nat) (m : tensor2) (i : nat) :
  has_shape n d m -> (i < n)%nat -> length (nth i m []) = d.
Proof.
  intros [Hn Hrows] Hi. rewrite Forall_forall in Hrows.
  apply Hrows, nth_In. lia.
Qed.

Ltac len :=
  repeat first [ rewrite length_map | rewrite map2_length by len ];
  try lia.

(** One row of the reconstruction term and of the KL term. *)
Lemma recon_row (d : nat) (t p : list R) :
  length t = d -> length p = d ->
  total (map (fun x => x * x) (map2 Rminus t p))
  = sum_upto d (fun j => (nth j t 0 - nth j p 0) ^ 2).
Proof.
  revert d p. induction t as [|x t IH]; intros d [|y p] Ht Hp;
    cbn in Ht, Hp; subst d; try discriminate; [reflexivity|].
  rewrite sum_upto_S. cbn [map2 map total fold_right nth].
  fold (total (map (fun x => x * x) (map2 Rminus t p))).
  rewrite (IH (length t) p) by lia. ring.
Qed.

Lemma kl_row (d : nat) (m l : list R) :
  length m = d -> length l = d ->
  total (map2 Rminus
           (map (fun x => x - 1)
              (map2 Rplus (map exp l) (map (fun x => x * x) m))) l)
  = sum_upto d (fun k => exp (nth k l 0) + nth k m 0 ^ 2 - 1 - nth k l 0).
Proof.
  revert d l. induction m as [|x m IH]; intros d [|y l] Hm Hl;
    cbn in Hm, Hl; subst d; try discriminate; [reflexivity|].
  rewrite sum_upto_S. cbn [map2 map total fold_right nth].
  match goal with |- _ + fold_right Rplus 0 ?t = _ => fold (total t) end.
  rewrite (IH (length m) l) by lia. ring.
Qed.

(** The per-sample terms of the source are the per-sample terms of the
    specification. *)
Lemma recon_loss_nth (n d : nat) (y_true y_pred : tensor2) (i : nat) :
  has_shape n d y_true -> has_shape n d y_pred -> (i < n)%nat ->
  nth i (recon_loss y_true y_pred) 0 = spec_reconstruction d y_true y_pred i.
Proof.
  intros Ht Hp Hi. pose proof (has_shape_row Ht Hi) as Lt.
  pose proof (has_shape_row Hp Hi) as Lp.
  destruct Ht as [Nt _], Hp as [Np _].
  unfold recon_loss, K.scale, K.sum_axis1, K.square, K.sub.
  rewrite !map_map.
  rewrite (nth_indep _ 0 (0.5 * total (map (fun x => x * x) []))) by len.
  rewrite (map_nth (fun r => 0.5 * total (map (fun x => x * x) r))).
  rewrite (map2_nth _ _ _ [] [] []) by lia.
  rewrite (recon_row _ _ Lt Lp).
  unfold spec_reconstruction, entry. lra.
Qed.

Lemma kl_loss_nth (n d : nat) (mu log_var : tensor2) (i : nat) :
  has_shape n d mu -> has_shape n d log_var -> (i < n)%nat ->
  nth i (kl_loss mu log_var) 0 = spec_kl d mu log_var i.
Proof.
  intros Hm Hl Hi. pose proof (has_shape_row Hm Hi) as Lm.
  pose proof (has_shape_row Hl Hi) as Ll.
  destruct Hm as [Nm _], Hl as [Nl _].
  unfold kl_loss, K.scale, K.sum_axis1, K.sub, K.sub_scalar, K.add,
    K.exp, K.square.
  rewrite map_map.
  rewrite (nth_indep _ 0 (0.5 * total [])) by len.
  rewrite (map_nth (fun r => 0.5 * total r)).
  rewrite (map2_nth _ _ _ [] [] []) by len.
  rewrite (nth_indep _ [] (map (fun x => x - 1) [])) by len.
  rewrite (map_nth (map (fun x => x - 1))).
  rewrite (map2_nth _ _ _ [] [] []) by len.
  rewrite (nth_indep (map (map exp) log_var) [] (map exp [])) by len.
  rewrite (nth_indep (map (map (fun x => x * x)) mu) []
                     (map (fun x => x * x) [])) by len.
  rewrite (map_nth (map exp)), (map_nth (map (fun x => x * x))).
  rewrite (kl_row _ _ Lm Ll).
  unfold spec_kl, entry. lra.
Qed.

Lemma recon_loss_length (n d : nat) (y_true y_pred : tensor2) :
  has_shape n d y_true -> has_shape n d y_pred ->
  length (recon_loss y_true y_pred) = n.
Proof.
  intros [Nt _] [Np _]. unfold recon_loss, K.scale, K.sum_axis1, K.square, K.sub.
  rewrite !length_map, map2_length; lia.
Qed.

Lemma kl_loss_length (n d : nat) (mu log_var : tensor2) :
  has_shape n d mu -> has_shape n d log_var ->
  length (kl_loss mu log_var) = n.
Proof.
  intros [Nm _] [Nl _].
  unfold kl_loss, K.scale, K.sum_axis1, K.sub, K.sub_scalar, K.add,
    K.exp, K.square.
  rewrite !length_map, map2_length; rewrite ?length_map, ?map2_length;
    rewrite ?length_map; lia.
Qed.

Lemma kl_loss_zeros (n d : nat) :
  kl_loss (np.zeros n d) (np.zeros n d) = repeat 0 n.
Proof.
  unfold kl_loss, K.scale, K.sum_axis1, K.sub, K.sub_scalar, K.add,
    K.exp, K.square, np.zeros.
  assert (Hrow : total (map2 Rminus
            (map (fun x => x - 1)
               (map2 Rplus (map exp (repeat 0 d))
                           (map (fun x => x * x) (repeat 0 d))))
            (repeat 0 d)) = 0).
  { induction d as [|d IH]; [reflexivity|].
    cbn [repeat map map2 total fold_right].
    unfold total in IH. rewrite IH, exp_0. lra. }
  induction n as [|n IH]; [reflexivity|].
  cbn [repeat map map2]. rewrite Hrow. f_equal; [lra | exact IH].
Qed.
End Sums.

(** C6.  For every batch, [vae_loss] is the mean over the batch of half the
    sum over the [x_dim] features of the squared reconstruction differences
    plus 0.001 times half the sum over the [z_dim] latent dimensions of
    [exp(log_var) + mean^2 - 1 - log_var]; and the KL term of every sample is
    exactly 0 when the mean and the log-variance are 0 in every latent
    dimension. *)
Theorem vae_loss_is_spec_loss (n x_dim z_dim : nat)
        (mu log_var y_true y_pred : tensor2) :
  has_shape n z_dim mu -> has_shape n z_dim log_var ->
  has_shape n x_dim y_true -> has_shape n x_dim y_pred ->
  vae_loss mu log_var y_true y_pred
  = spec_loss n x_dim z_dim mu log_var y_true y_pred
  /\ kl_loss (np.zeros n z_dim) (np.zeros n z_dim) = repeat 0%R n.
Proof.
  intros Hm Hl Ht Hp. split; [|apply kl_loss_zeros].
  unfold vae_loss, spec_loss, K.mean, mean.
  pose proof (recon_loss_length Ht Hp) as Lr.
  pose proof (kl_loss_length Hm Hl) as Lk.
  unfold K.vadd. rewrite map2_length by (unfold K.scale; rewrite length_map; lia).
  rewrite Lr. f_equal.
  rewrite total_nth, map2_length by (unfold K.scale; rewrite length_map; lia).
  rewrite Lr. apply sum_upto_ext. intros i Hi.
  rewrite (map2_nth _ _ _ 0%R 0%R 0%R)
    by (unfold K.scale; rewrite ?length_map; lia).
  rewrite (recon_loss_nth Ht Hp Hi). f_equal.
  unfold K.scale.
  rewrite (nth_indep _ 0%R (0.001 * 0)%R) by (rewrite length_map; lia).
  rewrite (map_nth (Rmult 0.001)). now rewrite (kl_loss_nth Hm Hl Hi).
Qed.

Lemma vae_loss_is_spec_loss_witness :
  vae_loss [[0%R]] [[0%R]] [[1%R]] [[1%R]]
  = spec_loss 1 1 1 [[0%R]] [[0%R]] [[1%R]] [[1%R]]
  /\ kl_loss (np.zeros 1 1) (np.zeros 1 1) = repeat 0%R 1.
Proof.
  apply (@vae_loss_is_spec_loss 1 1 1 [[0%R]] [[0%R]] [[1%R]] [[1%R]]);
    (split; [reflexivity | repeat constructor]).
Defined.

(* ================================================================== *)
(** * Reasoning about computations *)

Section Reasoning.
Context {B : Backend}.

Lemma bind_ok_inv {X Y} (m : Py X) (f : X -> Py Y) (s s' : State) (y : Y) :
  bind m f s = (Ok y, s') ->
  exists x s1, m s = (Ok x, s1) /\ f x s1 = (Ok y, s').
Proof.
  unfold bind. destruct (m s) as [[x|e] s1]; intros H.
  - now exists x, s1.
  - discriminate.
Qed.

Lemma bind_ok {X Y} (m : Py X) (f : X -> Py Y) (s s1 : State) (x : X) :
  m s = (Ok x, s1) -> bind m f s = f x s1.
Proof. unfold bind. now intros ->. Qed.

Lemma bind_raise {X Y} (m : Py X) (f : X -> Py Y) (s s1 : State) (e : exn) :
  m s = (Raise e, s1) -> bind m f s = (Raise e, s1).
Proof. unfold bind. now intros ->. Qed.

Lemma preserves_bind {A X Y} (p : State -> A) (m : Py X) (f : X -> Py Y) :
  preserves p m -> (forall x, preserves p (f x)) -> preserves p (bind m f).
Proof.
  intros Hm Hf s. unfold bind. specialize (Hm s).
  destruct (m s) as [[x|e] s1]; cbn [snd] in *.
  - now rewrite Hf.
  - exact Hm.
Qed.

Lemma raises_only_bind {X Y} (Q : exn -> Prop) (m : Py X) (f : X -> Py Y) :
  raises_only Q m -> (forall x, raises_only Q (f x)) ->
  raises_only Q (bind m f).
Proof.
  intros Hm Hf s e. unfold bind. specialize (Hm s).
  destruct (m s) as [[x|e'] s1]; cbn [fst] in *.
  - apply Hf.
  - intros [= <-]. now apply Hm.
Qed.

Lemma raises_only_lift {X} (Q : exn -> Prop) (r : result X) :
  rraises_only Q r -> raises_only Q (lift r).
Proof. intros H s. exact H. Qed.

Lemma rraises_only_rbind {X Y} (Q : exn -> Prop) (r : result X)
      (f : X -> result Y) :
  rraises_only Q r -> (forall x, rraises_only Q (f x)) ->
  rraises_only Q (rbind r f).
Proof.
  intros Hr Hf e. destruct r as [x|e']; cbn.
  - apply Hf.
  - intros [= <-]. now apply Hr.
Qed.

Lemma rraises_only_rmapM {X Y} (Q : exn -> Prop) (f : X -> result Y)
      (l : list X) :
  (forall x, rraises_only Q (f x)) -> rraises_only Q (rmapM f l).
Proof.
  intros Hf. induction l as [|x l IH]; cbn [rmapM].
  - intros e H. discriminate.
  - apply rraises_only_rbind; [apply Hf|]. intros y.
    apply rraises_only_rbind; [exact IH|]. intros ys e H. discriminate.
Qed.

Lemma rraises_only_broadcast {X Y Z} (Q : exn -> Prop)
      (f : X -> Y -> result Z) (a : list X) (b : list Y) :
  Q ValueError -> (forall x y, rraises_only Q (f x y)) ->
  rraises_only Q (np.broadcast f a b).
Proof.
  intros HV Hf. unfold np.broadcast.
  destruct (length a =? length b).
  - apply rraises_only_rmapM. intros [x y]. apply Hf.
  - destruct a as [|x [|x' a]]; [|apply rraises_only_rmapM; intros y; apply Hf|];
      destruct b as [|y [|y' b]];
      first [ apply rraises_only_rmapM; intros z; apply Hf
            | intros e H; injection H as <-; exact HV ].
Qed.

Lemma rraises_only_binop (Q : exn -> Prop) (f : R -> R -> R) (a b : ndarray) :
  Q ValueError -> rraises_only Q (np.binop f a b).
Proof.
  intros HV.
  assert (H1 : forall u v, rraises_only Q (np.op1 f u v)).
  { intros u v. apply rraises_only_broadcast; [exact HV|].
    intros x y e H. discriminate. }
  assert (H2 : forall u v, rraises_only Q (np.op2 f u v)).
  { intros u v. apply rraises_only_broadcast; [exact HV | exact H1]. }
  assert (H3 : forall u v, rraises_only Q (np.op3 f u v)).
  { intros u v. apply rraises_only_broadcast; [exact HV | exact H2]. }
  destruct a, b; cbn [np.binop]; apply rraises_only_rbind;
    auto; intros r e H; discriminate.
Qed.

Lemma rraises_only_take_rows (Q : exn -> Prop) (ind : list nat) (m : tensor2) :
  Q IndexError -> rraises_only Q (np.take_rows ind m).
Proof.
  intros HI. apply rraises_only_rmapM. intros i e.
  destruct (nth_error m i); intros [= <-]. exact HI.
Qed.

Lemma rraises_only_getitem {V} (Q : exn -> Prop) (d : dict V) (k : string) :
  Q (KeyError k) -> rraises_only Q (getitem d k).
Proof.
  intros HK. induction d as [|[k' v] d IH]; cbn [getitem].
  - intros e [= <-]. exact HK.
  - destruct (String.eqb k' k); [intros e H; discriminate | exact IH].
Qed.

Lemma fails_when_bind {X Y} (P : State -> Prop) (m : Py X) (f : X -> Py Y) :
  stable P m -> (forall x, fails_when P (f x)) -> fails_when P (bind m f).
Proof.
  intros Hm Hf s Hs. unfold bind. specialize (Hm s Hs).
  destruct (m s) as [[x|e] s1]; cbn [snd fst] in *.
  - now apply Hf.
  - now exists e.
Qed.

Lemma preserves_at {A X} (p : State -> A) (m : Py X) (s s1 : State)
      (r : result X) :
  preserves p m -> m s = (r, s1) -> p s1 = p s.
Proof. intros P E. specialize (P s). now rewrite E in P. Qed.

Lemma update_self_preserves {A} (q : VAEArithKeras -> A)
      (f : VAEArithKeras -> VAEArithKeras) :
  (forall o, q (f o) = q o) ->
  preserves (fun s => q (self s)) (update_self f).
Proof. intros H s. apply H. Qed.

Lemma fails_when_bind_l {X Y} (P : State -> Prop) (m : Py X) (f : X -> Py Y) :
  fails_when P m -> fails_when P (bind m f).
Proof.
  intros Hm s Hs. unfold bind. destruct (Hm s Hs) as [e He].
  destruct (m s) as [[x|e'] s1]; cbn [fst] in *; [discriminate|].
  now exists e'.
Qed.

End Reasoning.

Create HintDb pres.
Create HintDb raises.

(** Decomposition of a goal [preserves p m] along the structure of [m]; the
    methods already treated are in the hint database, the primitive
    computations are settled by evaluation. *)
Ltac preserves_step :=
  lazymatch goal with
  | |- preserves _ (bind _ _) => apply preserves_bind; [|intros]
  | |- preserves _ (match ?x with _ => _ end) => destruct x
  | |- preserves _ (update_self _) =>
      first [ solve [intros ?; reflexivity]
            | apply update_self_preserves; intros; solve [auto] ]
  | |- preserves _ _ =>
      first [ assumption | solve [auto with pres]
            | solve [intros ?; reflexivity] ]
  end.

Ltac preserves_tac := repeat preserves_step.

Ltac raises_step :=
  lazymatch goal with
  | |- raises_only _ (bind _ _) => apply raises_only_bind; [|intros]
  | |- raises_only _ (match ?x with _ => _ end) => destruct x
  | |- raises_only _ (lift _) => apply raises_only_lift
  | |- raises_only _ _ =>
      first [ assumption | solve [auto with raises]
            | solve [intros ? ? ?; discriminate] ]
  | |- rraises_only _ (rbind _ _) => apply rraises_only_rbind; [|intros]
  | |- rraises_only _ (match ?x with _ => _ end) => destruct x
  | |- rraises_only _ (getitem _ _) => apply rraises_only_getitem
  | |- rraises_only _ (np.take_rows _ _) => apply rraises_only_take_rows
  | |- rraises_only _ (np.binop _ _ _) => apply rraises_only_binop
  | |- rraises_only _ _ =>
      first [ assumption | solve [auto with raises]
            | solve [intros ? ?; discriminate] ]
  end.

Ltac raises_tac := repeat raises_step.

(* ================================================================== *)
(** * What the methods leave unchanged *)

Section Frames.
Context {B : Backend}.

(** The methods of inference never assign an attribute of the object. *)
Lemma to_latent_self data : preserves self (to_latent data).
Proof. unfold to_latent, keras_predict. preserves_tac. Qed.
#[local] Hint Resolve to_latent_self : pres.

Lemma avg_vector_self data : preserves self (_avg_vector data).
Proof. unfold _avg_vector. preserves_tac. Qed.
#[local] Hint Resolve avg_vector_self : pres.

Lemma reconstruct_self data use_data : preserves self (reconstruct data use_data).
Proof.
  unfold reconstruct. intros s. unfold bind, get. cbn.
  destruct (decoder_model (self s)); [destruct data|]; try reflexivity.
  cbn. now destruct (widths_are _ _).
Qed.
#[local] Hint Resolve reconstruct_self : pres.

Lemma linear_interpolation_with_self test src dst n :
  preserves self (linear_interpolation_with test src dst n).
Proof. unfold linear_interpolation_with. preserves_tac. Qed.

Lemma linear_interpolation_self src dst n :
  preserves self (linear_interpolation src dst n).
Proof. apply linear_interpolation_with_self. Qed.
#[local] Hint Resolve linear_interpolation_self : pres.

Lemma select_subsets_self adata conds ok :
  preserves self (select_subsets adata conds ok).
Proof. unfold select_subsets, call_balancer. preserves_tac. Qed.
#[local] Hint Resolve select_subsets_self : pres.

Lemma check_target_self atp ctp : preserves self (check_target atp ctp).
Proof. unfold check_target. preserves_tac. Qed.
#[local] Hint Resolve check_target_self : pres.

Lemma predict_target_self adata conds atp ctp ctrl_x stim_x :
  preserves self (predict_target adata conds atp ctp ctrl_x stim_x).
Proof. unfold predict_target, call_extractor, choice. preserves_tac. Qed.
#[local] Hint Resolve predict_target_self : pres.

Lemma predict_self adata conds atp ctp ok :
  preserves self (predict adata conds atp ctp ok).
Proof. unfold predict. preserves_tac. Qed.
#[local] Hint Resolve predict_self : pres.

(** Training assigns the session and the weights of the shared layers,
    and nothing else. *)
Section Train.
Context {A : Type} (q : VAEArithKeras -> A).
Hypothesis q_sess : forall v o, q (set_sess v o) = q o.
Hypothesis q_layers : forall w o, q (set_layers w o) = q o.

Lemma fit_loop_keeps x vd bs sh pat md epochs :
  forall epoch history,
    preserves (fun s => q (self s))
              (fit_loop x vd bs sh pat md epochs epoch history).
Proof.
  induction epochs as [|epochs IH]; intros epoch history; cbn [fit_loop];
    preserves_tac.
Qed.

Lemma train_keeps td uv vd ne bs esl th ir sh :
  preserves (fun s => q (self s)) (train td uv vd ne bs esl th ir sh).
Proof.
  pose proof fit_loop_keeps as Hfit.
  unfold train, vae_model_fit, model_save. preserves_tac.
Qed.
End Train.

Lemma train_decoder_model td uv vd ne bs esl th ir sh :
  preserves (fun s => decoder_model (self s))
            (train td uv vd ne bs esl th ir sh).
Proof. now apply train_keeps. Qed.

Lemma train_encoder_model td uv vd ne bs esl th ir sh :
  preserves (fun s => encoder_model (self s))
            (train td uv vd ne bs esl th ir sh).
Proof. now apply train_keeps. Qed.

(** On an object that was never restored there is no [decoder_model], and
    the encoder model has its three outputs. *)
Lemma unrestored_attributes (s : State) :
  unrestored s ->
  decoder_model (self s) = None
  /\ model_outputs (encoder_model (self s)) = Out_mu_log_var_z.
Proof.
  induction 1 as [ | s td uv vd ne bs esl th ir sh _ IH | s data _ IH
                   | s data _ IH | s data b _ IH | s src dst n _ IH
                   | s adata conds atp ctp ok _ IH ].
  - split; reflexivity.
  - now rewrite train_decoder_model, train_encoder_model.
  - now rewrite to_latent_self.
  - now rewrite avg_vector_self.
  - now rewrite reconstruct_self.
  - now rewrite linear_interpolation_self.
  - now rewrite predict_self.
Qed.
End Frames.

#[global] Hint Resolve to_latent_self avg_vector_self reconstruct_self
  linear_interpolation_self select_subsets_self check_target_self
  predict_target_self predict_self : pres.

(* ================================================================== *)
(** * Objects that were never restored *)

Ltac fails_step stab lem :=
  lazymatch goal with
  | |- fails_when _ (bind (reconstruct _ _) _) =>
      apply fails_when_bind_l, lem
  | |- fails_when _ (bind _ _) =>
      apply fails_when_bind;
      [ apply stab; unfold call_extractor, choice; solve [preserves_tac]
      | intros ]
  | |- fails_when _ (match ?x with _ => _ end) => destruct x
  end.

Section Unrestored.
Context {B : Backend}.

Lemma reconstruct_no_decoder data use_data s :
  no_decoder s ->
  reconstruct data use_data s = (Raise (AttributeError "decoder_model"), s).
Proof. unfold no_decoder, reconstruct, bind, get. now intros ->. Qed.

Lemma reconstruct_fails data use_data :
  fails_when no_decoder (reconstruct data use_data).
Proof.
  intros s Hs. rewrite (reconstruct_no_decoder _ _ Hs). now eexists.
Qed.

Lemma stable_no_decoder {X} (m : Py X) :
  preserves self m -> stable no_decoder m.
Proof. intros H s Hs. unfold no_decoder. now rewrite H. Qed.

Lemma predict_fails adata conds atp ctp ok :
  fails_when no_decoder (predict adata conds atp ctp ok).
Proof.
  unfold predict, predict_target.
  repeat fails_step @stable_no_decoder reconstruct_fails.
Qed.

(** The mean of a data set: an attribute error on a dense array, a single
    row otherwise. *)
Lemma mean_axis0_length (m : tensor2) : length (np.mean_axis0 m) = shape1 m.
Proof. unfold np.mean_axis0. now rewrite length_map, length_seq. Qed.

Lemma average_if_sparse_cases adata :
  average_if_sparse adata = Raise (AttributeError "A")
  \/ exists v, average_if_sparse adata = Ok [v] /\ length v = n_vars adata.
Proof.
  unfold average_if_sparse, n_vars. destruct (X adata) as [m|m]; cbn.
  - now left.
  - right. unfold reshape_row. rewrite mean_axis0_length, Nat.eqb_refl.
    eexists. split; [reflexivity | apply mean_axis0_length].
Qed.

Lemma to_latent_three_outputs data s :
  model_outputs (encoder_model (self s)) = Out_mu_log_var_z ->
  widths_are (x_dim (self s)) (content data) = true ->
  exists l s1, to_latent data s = (Ok (Outputs l), s1) /\ self s1 = self s.
Proof.
  intros H Hw. unfold to_latent, keras_predict, bind, get, emit, modify,
    fresh_draw, ret. cbn. rewrite Hw.
  destruct (encoder_forward _ _) as [mu log_var]. rewrite H.
  now eexists _, _.
Qed.

Lemma linear_interpolation_fails src dst n :
  fails_when no_decoder (linear_interpolation src dst n).
Proof.
  unfold linear_interpolation, linear_interpolation_with.
  repeat fails_step @stable_no_decoder reconstruct_fails.
Qed.

(** For data of the width of the network the failure is an attribute error:
    of [X.A] on a dense array, or of [start.shape] on the list that
    [to_latent] returns. *)
Lemma linear_interpolation_attribute_error test src dst n s :
  model_outputs (encoder_model (self s)) = Out_mu_log_var_z ->
  n_vars src = x_dim (self s) -> n_vars dst = x_dim (self s) ->
  exists attr,
    fst (linear_interpolation_with test src dst n s)
    = Raise (AttributeError attr).
Proof.
  intros H Hsrc Hdst. unfold linear_interpolation_with.
  assert (Hs : forall a, (if test (X a) then average_if_sparse a
                          else average_otherwise a)
                         = average_if_sparse a)
    by (intros a; now destruct (test (X a))).
  rewrite !Hs.
  destruct (average_if_sparse_cases src) as [-> | (v & -> & Lv)];
    [now exists "A"%string|].
  destruct (average_if_sparse_cases dst) as [-> | (w & -> & Lw)];
    [now exists "A"%string|].
  cbn [bind lift].
  assert (Wv : widths_are (x_dim (self s)) (content (NdArray [v])) = true)
    by (cbn; now rewrite Lv, Hsrc, Nat.eqb_refl).
  destruct (to_latent_three_outputs (NdArray [v]) s H Wv) as (l1 & s1 & E1 & S1).
  erewrite bind_ok by exact E1.
  assert (H1 : model_outputs (encoder_model (self s1)) = Out_mu_log_var_z)
    by now rewrite S1.
  assert (Ww : widths_are (x_dim (self s1)) (content (NdArray [w])) = true)
    by (cbn; now rewrite S1, Lw, Hdst, Nat.eqb_refl).
  destruct (to_latent_three_outputs (NdArray [w]) s1 H1 Ww) as (l2 & s2 & E2 & S2).
  erewrite bind_ok by exact E2. now exists "shape"%string.
Qed.
End Unrestored.

(** C8 (amended).  The attribute [decoder_model] exists on no object on which
    [restore_model] was never called, whether it was only constructed or
    also trained.  On such an object every call of [reconstruct] fails
    with an attribute error, and every call of [linear_interpolation] and of
    [predict] fails as well, so that neither returns reconstructed vectors;
    for data of the width of the network the failure of
    [linear_interpolation] is an attribute error too. *)
Theorem no_decoder_model_before_restore {B : Backend} (s : State) :
  unrestored s ->
  decoder_model (self s) = None
  /\ (forall data use_data,
         fst (reconstruct data use_data s)
         = Raise (AttributeError "decoder_model"))
  /\ (forall src dst n,
         (exists e, fst (linear_interpolation src dst n s) = Raise e)
         /\ (n_vars src = x_dim (self s) -> n_vars dst = x_dim (self s) ->
             exists attr,
               fst (linear_interpolation src dst n s)
               = Raise (AttributeError attr)))
  /\ (forall adata conds atp ctp ok, exists e,
         fst (predict adata conds atp ctp ok s) = Raise e).
Proof.
  intros Hs. destruct (unrestored_attributes Hs) as [Hd He].
  split; [exact Hd|]. split; [|split].
  - intros data use_data. now rewrite reconstruct_no_decoder.
  - intros src dst n. split.
    + now apply linear_interpolation_fails.
    + now apply linear_interpolation_attribute_error.
  - intros adata conds atp ctp ok. now apply predict_fails.
Qed.

Lemma no_decoder_model_before_restore_witness :
  decoder_model (self trained_object) = None
  /\ (forall data use_data,
         fst (reconstruct data use_data trained_object)
         = Raise (AttributeError "decoder_model"))
  /\ (forall src dst n,
         (exists e, fst (linear_interpolation src dst n trained_object) = Raise e)
         /\ (n_vars src = x_dim (self trained_object) ->
             n_vars dst = x_dim (self trained_object) ->
             exists attr,
               fst (linear_interpolation src dst n trained_object)
               = Raise (AttributeError attr)))
  /\ (forall adata conds atp ctp ok, exists e,
         fst (predict adata conds atp ctp ok trained_object) = Raise e).
Proof.
  apply (@no_decoder_model_before_restore small_backend trained_object).
  unfold trained_object, fresh_object. apply unrestored_train, unrestored_init.
Defined.

(** C8, as first stated, fails: on an object that was only constructed, a
    call of [predict] that names no target ends in the configuration error,
    which is no attribute error. *)
Lemma predict_before_restore_configuration_error :
  unrestored fresh_object
  /\ fst (predict four_cells ctrl_stim None None (ObsStr "all") fresh_object)
     = Raise none_given
  /\ forall attr, none_given <> AttributeError attr.
Proof.
  split; [apply unrestored_init|]. split; [reflexivity|].
  intros attr. discriminate.
Qed.

(** A call of [predict] that gets as far as [reconstruct] on the object as
    constructed: there it fails with the attribute error. *)
Lemma predict_before_restore_attribute_error :
  fst (predict four_cells ctrl_stim (Some two_cells) None (ObsStr "all")
               fresh_object)
  = Raise (AttributeError "decoder_model").
Proof. reflexivity. Qed.

(* ================================================================== *)
(** * The configuration error of [predict] *)

Section Predict.
Context {B : Backend}.

Lemma check_target_cases atp ctp s :
  check_target atp ctp s
  = (match ctp, atp with
     | Some _, Some _ => Raise both_given
     | None, None => Raise none_given
     | _, _ => Ok tt
     end, s).
Proof. now destruct atp, ctp. Qed.

Lemma to_latent_raises (Q : exn -> Prop) data :
  Q ValueError -> raises_only Q (to_latent data).
Proof.
  intros HV. unfold to_latent, keras_predict. intros s e.
  unfold bind, get, emit, modify, fresh_draw, ret, raise. cbn.
  destruct (widths_are _ _).
  - destruct (encoder_forward _ _). discriminate.
  - now intros [= <-].
Qed.

Lemma avg_vector_raises (Q : exn -> Prop) data :
  Q ValueError -> raises_only Q (_avg_vector data).
Proof.
  intros HV. unfold _avg_vector.
  apply raises_only_bind; [now apply to_latent_raises|].
  intros x s e. discriminate.
Qed.

Lemma reconstruct_raises data use_data :
  raises_only not_Exception (reconstruct data use_data).
Proof.
  intros s e. unfold reconstruct, bind, get. cbn.
  destruct (decoder_model (self s)); [destruct data|]; cbn;
    try destruct (widths_are _ _); cbn; intros [= <-]; exact I.
Qed.

Lemma predict_target_raises adata conds atp ctp ctrl_x stim_x :
  raises_only not_Exception
              (predict_target adata conds atp ctp ctrl_x stim_x).
Proof.
  pose proof (fun data => @to_latent_raises not_Exception data I) as Hl.
  pose proof (fun data => @avg_vector_raises not_Exception data I) as Ha.
  pose proof reconstruct_raises as Hr.
  unfold predict_target, call_extractor, choice, item, dot_A, index_rows,
    np.add, np.subtract.
  raises_tac; try exact I; try (intros ? [= <-]; exact I);
    try (intros ? ? [= <-]; exact I).
Qed.

(** Selecting the subsets calls the balancer at most twice and does
    nothing else. *)
Lemma select_subsets_effect adata conds ok s :
  exists k, k <= 2
    /\ snd (select_subsets adata conds ok s)
       = {| self := self s; fs := fs s; draws := draws s;
            trace := trace s ++ repeat CallBalancer k |}.
Proof.
  destruct s as [o f d t].
  unfold select_subsets, call_balancer, bind, lift, emit, modify, ret.
  cbn [self fs draws trace].
  destruct (is_all ok);
    repeat match goal with
           | |- context [match ?r with Ok _ => _ | Raise _ => _ end] =>
               destruct r; cbn [fst snd self fs draws trace]
           | |- context [if ?b then _ else _] =>
               destruct b; cbn [fst snd self fs draws trace]
           end;
    first [ exists 0; split; [lia|]; cbn [repeat]; now rewrite app_nil_r
          | exists 2; split; [lia|]; cbn [repeat]; now rewrite <- app_assoc ].
Qed.
End Predict.

(** C3 (amended).  [predict] first selects (and balances) the control and
    the stimulated cells; an error of that step ends the call, whatever the
    targets.  When that step succeeds, [predict] raises a configuration error
    if and only if both or neither of [celltype_to_predict] and
    [adata_to_predict] are supplied, and it raises it at once: the state is
    still the one the selection left, so no extraction, down-sampling,
    encoding or decoding has happened.  The selection itself does nothing but
    call the balancer, at most twice. *)
Theorem predict_configuration_error {B : Backend}
        (adata : AnnData) (conds : dict string) (atp : option AnnData)
        (ctp : option string) (ok : obs_key_t) (s : State) :
  let selection := select_subsets adata conds ok s in
  let outcome := predict adata conds atp ctp ok s in
  (forall e, fst selection = Raise e -> outcome = (Raise e, snd selection))
  /\ (forall subsets, fst selection = Ok subsets ->
        (config_error (fst outcome) <-> is_not_None ctp = is_not_None atp)
        /\ (is_not_None ctp = is_not_None atp -> snd outcome = snd selection))
  /\ (exists k, k <= 2
        /\ snd selection
           = {| self := self s; fs := fs s; draws := draws s;
                trace := trace s ++ repeat CallBalancer k |}).
Proof.
  intros selection outcome. split; [|split].
  - intros e He. subst outcome. unfold predict.
    apply bind_raise. destruct selection as [r s1] eqn:E. cbn in He.
    subst selection. now rewrite E, He.
  - intros [ctrl_x stim_x] Hsel.
    assert (E : select_subsets adata conds ok s
                = (Ok (ctrl_x, stim_x), snd selection)).
    { subst selection. destruct (select_subsets adata conds ok s) as [r s1].
      cbn in Hsel |- *. now rewrite Hsel. }
    assert (Hout : outcome
                   = bind (check_target atp ctp)
                          (fun _ => predict_target adata conds atp ctp
                                                   ctrl_x stim_x)
                          (snd selection)).
    { subst outcome. unfold predict. now erewrite bind_ok by exact E. }
    rewrite Hout. unfold bind at 1. rewrite check_target_cases.
    pose proof (@predict_target_raises B adata conds atp ctp ctrl_x stim_x
                  (snd selection)) as Hr.
    destruct ctp as [c|], atp as [a|]; cbn [fst snd is_not_None].
    + split; [|reflexivity]. split; [reflexivity|]. intros _. now left.
    + split; [|discriminate]. split; [|discriminate].
      intros [H|H]; apply Hr in H; destruct H.
    + split; [|discriminate]. split; [|discriminate].
      intros [H|H]; apply Hr in H; destruct H.
    + split; [|reflexivity]. split; [reflexivity|]. intros _. now right.
  - apply select_subsets_effect.
Qed.

(** C3, as first stated, fails: the check comes after the selection of the
    subsets.  With no target named and a [conditions] dictionary without the
    key ["ctrl"], the call ends in the key error of the selection, not in the
    configuration error; and where the configuration error is raised, the
    balancer has been called twice before. *)
Lemma predict_checks_after_selection :
  fst (predict (B := small_backend) four_cells [] None None (ObsStr "all")
               fresh_object)
  = Raise (KeyError "ctrl")
  /\ fst (predict four_cells ctrl_stim None None (ObsStr "all") fresh_object)
     = Raise none_given
  /\ trace (snd (predict four_cells ctrl_stim None None (ObsStr "all")
                         fresh_object))
     = [CallBalancer; CallBalancer].
Proof. repeat split; reflexivity. Qed.

(* ================================================================== *)
(** * Training *)

(** The tests of a run of [train] before its first epoch: the checkpoint of
    a resumed run, the compiled model, the widths of the data, the log
    file.  Each is decided in turn; the branches that raise are closed
    where the goal assumes a completed run. *)
Ltac train_step :=
  match goal with
  | |- context [match saver_restore ?a ?b with _ => _ end] =>
      destruct (saver_restore a b)
  | |- context [if compiled ?m then _ else _] => destruct (compiled m)
  | |- context [if widths_are ?d ?x then _ else _] =>
      destruct (widths_are d x)
  | |- context [if csv_logger_opens ?f then _ else _] =>
      destruct (csv_logger_opens f)
  end;
  cbn [fst snd self fs draws trace negb andb is_None is_not_None
       set_sess vae_model encoder_model model_to_use x_dim layers];
  try (intros; discriminate).

Section Training.
Context {B : Backend}.

Lemma shuffles_app t u : shuffles (t ++ u) = shuffles t + shuffles u.
Proof. unfold shuffles. now rewrite filter_app, length_app. Qed.

Lemma epochs_run_app t u : epochs_run (t ++ u) = epochs_run t + epochs_run u.
Proof. unfold epochs_run. now rewrite filter_app, length_app. Qed.

Lemma fit_events_counts sh start k :
  shuffles (fit_events sh start k) = (if sh then k else 0)
  /\ epochs_run (fit_events sh start k) = k.
Proof.
  revert start. induction k as [|k IH]; intros start.
  - now destruct sh.
  - unfold fit_events. cbn [seq flat_map]. fold (fit_events sh (S start) k).
    rewrite !shuffles_app, !epochs_run_app.
    destruct (IH (S start)) as [-> ->]. now destruct sh.
Qed.

(** A run of the epoch loop: it returns, has run between one and all of
    the epochs asked for, and has touched neither the files nor any
    attribute but the weights. *)
Lemma fit_loop_events x vd bs sh pat md epochs :
  forall epoch history s,
  exists k s',
    fit_loop x vd bs sh pat md epochs epoch history s = (Ok tt, s')
    /\ k <= epochs /\ (1 <= epochs -> 1 <= k)
    /\ trace s' = trace s ++ fit_events sh epoch k
    /\ fs s' = fs s.
Proof.
  induction epochs as [|epochs IH]; intros epoch history s.
  - exists 0, s. cbn. rewrite app_nil_r. repeat split; lia.
  - cbn [fit_loop].
    unfold update_self, emit.
    unfold bind, modify, fresh_draw, get, ret.
    destruct sh; cbn [fst snd self fs draws trace];
      (destruct vd as [v|];
       [ match goal with
         | |- context [if ?b then _ else _] => destruct b
         end
       | ]);
      try (match goal with
           | |- context [fit_loop ?a ?b ?c ?d ?e ?f epochs ?g ?h ?st] =>
               destruct (IH g h st) as (k & s' & -> & Hk & _ & Ht & Hf)
           end;
           exists (S k), s'; cbn [trace fs] in Ht, Hf;
           rewrite Ht, Hf; unfold fit_events; cbn [seq flat_map app];
           rewrite <- ?app_assoc; cbn [app];
           repeat split; lia);
      (eexists 1, _; split; [reflexivity|];
       cbn [trace fs]; unfold fit_events; cbn [seq flat_map app];
       rewrite <- ?app_assoc; cbn [app]; repeat split; lia).
Qed.

Lemma fit_loop_raises Q x vd bs sh pat md epochs epoch history :
  raises_only Q (fit_loop x vd bs sh pat md epochs epoch history).
Proof.
  intros s e.
  destruct (fit_loop_events x vd bs sh pat md epochs epoch history s)
    as (k & s' & -> & _). discriminate.
Qed.

Lemma train_raises td uv vd ne bs esl th ir sh :
  uv && is_None vd = false ->
  raises_only not_Exception (train td uv vd ne bs esl th ir sh).
Proof.
  intros Hc. pose proof (fit_loop_raises not_Exception) as Hfit.
  unfold train, vae_model_fit, model_save. rewrite Hc.
  raises_tac; try exact I; try (intros ? ? [= <-]; exact I).
Qed.
End Training.

(** C7 (amended).  Called with [use_validation] true and no [valid_data],
    [train] raises the configuration error before any training whenever the
    call gets as far as the check, that is on an initial run, and on a
    resumed run once the saver has restored the session: the weights and
    the files are as before, no random draw was made, and nothing was
    called but the logger of an initial run.  On a resumed run without a
    checkpoint at the model path the error of the saver ends the call
    first, with nothing changed.  With validation data supplied, or
    validation not asked for, the configuration error is not raised. *)
Theorem train_validation_check {B : Backend}
        (td : AnnData) (ne bs esl : nat) (th : R) (ir sh : bool) (s : State) :
  let outcome := train td true None ne bs esl th ir sh s in
  let restored := saver_restore (model_to_use (self s)) (sess (self s)) in
  (ir = true \/ restored <> None ->
   fst outcome = Raise validation_missing
   /\ layers (self (snd outcome)) = layers (self s)
   /\ fs (snd outcome) = fs s
   /\ draws (snd outcome) = draws s
   /\ trace (snd outcome)
      = trace s ++ (if ir then [LogInfo "----Training----"] else []))
  /\ (ir = false -> restored = None -> outcome = (Raise ValueError, s))
  /\ (forall uv vd,
         fst (train td uv (Some vd) ne bs esl th ir sh s)
         <> Raise validation_missing)
  /\ (forall ovd,
         fst (train td false ovd ne bs esl th ir sh s)
         <> Raise validation_missing).
Proof.
  cbn zeta. split; [|split; [|split]].
  - intros H. unfold train, bind, get, update_self, modify, emit, raise, ret.
    destruct ir; cbn [negb fst snd self fs draws trace andb is_None
                      is_not_None].
    + cbn. rewrite ?app_nil_r. repeat split.
    + destruct H as [H|H]; [discriminate|].
      destruct (saver_restore _ _) as [restored|]; [|now destruct H].
      cbn. rewrite ?app_nil_r. repeat split.
  - intros -> H. unfold train, bind, get, update_self, modify, emit, raise, ret.
    cbn [negb fst snd self fs draws trace]. now rewrite H.
  - intros uv vd H.
    assert (Hc : uv && is_None (Some vd) = false) by now destruct uv.
    apply (@train_raises B td uv (Some vd) ne bs esl th ir sh Hc s) in H.
    exact H.
  - intros ovd H.
    apply (@train_raises B td false ovd ne bs esl th ir sh eq_refl s) in H.
    exact H.
Qed.

Lemma train_validation_check_witness :
  fst (@train small_backend four_cells true None 2 32 20 0.0025%R true true
         fresh_object)
  = Raise validation_missing.
Proof.
  exact (proj1 (proj1 (@train_validation_check small_backend four_cells
                         2 32 20 0.0025%R true true fresh_object)
                  (or_introl eq_refl))).
Defined.

(** C7, as first stated, fails on a resumed run: the saver restores the
    session before the check, and with no checkpoint at the model path (the
    class never writes one) its ValueError ends the call; the configuration
    error is not raised. *)
Lemma train_resumed_run_fails_before_check :
  fst (@train small_backend four_cells true None 2 32 20 0.0025%R false true
         fresh_object)
  = Raise ValueError
  /\ fst (@train small_backend four_cells true None 2 32 20 0.0025%R false
            true fresh_object)
     <> Raise validation_missing.
Proof. split; [reflexivity | discriminate]. Qed.

(** C5 (amended).  When [train] completes, its trace is: the log line of an
    initial run; with shuffling enabled, one call of [shuffle_data]; the call
    of [fit], which gets the same [shuffle] flag; the [k] epochs that were
    run, each of them preceded by a permutation of the samples when the flag
    is set; the two saves and the closing log line.  So with shuffling
    enabled the training set is permuted [1 + k] times, once before the loop
    and once more before every epoch, and not at all with shuffling
    disabled; [k] is at least one when an epoch was asked for. *)
Theorem train_shuffles {B : Backend}
        (td : AnnData) (uv : bool) (vd : option AnnData) (ne bs esl : nat)
        (th : R) (ir sh : bool) (s : State) :
  fst (train td uv vd ne bs esl th ir sh s) = Ok tt ->
  exists k, k <= ne /\ (1 <= ne -> 1 <= k)
    /\ trace (snd (train td uv vd ne bs esl th ir sh s))
       = trace s
         ++ (if ir then [LogInfo "----Training----"] else [])
         ++ (if sh then [ShuffleData] else [])
         ++ Fit ne bs uv sh :: fit_events sh 0 k
         ++ [Save "vae.h5"; Save "encoder.h5";
             LogInfo ("Models are saved in file: " ++ model_to_use (self s)
                      ++ ". Training finished")]
    /\ shuffles (trace (snd (train td uv vd ne bs esl th ir sh s)))
       = shuffles (trace s) + (if sh then 1 + k else 0).
Proof.
  intros H.
  assert (E : exists k, k <= ne /\ (1 <= ne -> 1 <= k)
    /\ trace (snd (train td uv vd ne bs esl th ir sh s))
       = trace s
         ++ (if ir then [LogInfo "----Training----"] else [])
         ++ (if sh then [ShuffleData] else [])
         ++ Fit ne bs uv sh :: fit_events sh 0 k
         ++ [Save "vae.h5"; Save "encoder.h5";
             LogInfo ("Models are saved in file: " ++ model_to_use (self s)
                      ++ ". Training finished")]).
  { assert (Hm : preserves (fun s => model_to_use (self s))
                           (train td uv vd ne bs esl th ir sh))
      by now apply train_keeps.
    specialize (Hm s). cbn beta in Hm. rewrite <- Hm. clear Hm.
    revert H.
    unfold train, vae_model_fit, model_save, write_file, update_self, emit.
    unfold bind, modify, fresh_draw, get, ret, raise.
    destruct ir, sh, uv, vd as [v|];
      cbn [fst snd self fs draws trace negb andb is_None is_not_None
           set_sess vae_model model_to_use];
      try (intros; discriminate);
      repeat train_step;
      match goal with
      | |- context [fit_loop ?a ?b ?c ?d ?e ?f ?g ?h ?i ?st] =>
          destruct (fit_loop_events a b c d e f g h i st)
            as (k & s' & -> & Hk1 & Hk2 & Ht & Hf)
      end;
      cbn [fst snd self fs draws trace] in *;
      intros _; exists k; rewrite Ht;
      (split; [exact Hk1|]; split; [exact Hk2|]);
      rewrite <- ?app_assoc; reflexivity. }
  destruct E as (k & Hk1 & Hk2 & E). exists k.
  split; [exact Hk1|]. split; [exact Hk2|]. split; [exact E|].
  rewrite E, !shuffles_app.
  change (Fit ne bs uv sh :: fit_events sh 0 k ++ ?l)
    with ([Fit ne bs uv sh] ++ fit_events sh 0 k ++ l).
  rewrite !shuffles_app.
  destruct (fit_events_counts sh 0 k) as [-> _].
  destruct ir, sh; cbn; lia.
Qed.

Lemma train_shuffles_witness :
  exists k, k <= 2 /\ (1 <= 2 -> 1 <= k)
    /\ trace trained_object
       = trace fresh_object
         ++ [LogInfo "----Training----"]
         ++ [ShuffleData]
         ++ Fit 2 32 false true :: fit_events true 0 k
         ++ [Save "vae.h5"; Save "encoder.h5";
             LogInfo ("Models are saved in file: "
                      ++ model_to_use (self fresh_object)
                      ++ ". Training finished")]
    /\ shuffles (trace trained_object)
       = shuffles (trace fresh_object) + (1 + k).
Proof.
  apply (@train_shuffles small_backend four_cells false None 2 32 20
                         0.0025%R true true fresh_object).
  reflexivity.
Defined.

(** C5, as first stated, fails: in a run like that of the docstring examples,
    with shuffling enabled and two epochs, the training set is permuted three
    times, and the third permutation lies between the two epochs. *)
Lemma train_reshuffles_every_epoch :
  trace trained_object
  = [LogInfo "----Training----"; ShuffleData; Fit 2 32 false true;
     EpochShuffle 0; Epoch 0; EpochShuffle 1; Epoch 1;
     Save "vae.h5"; Save "encoder.h5";
     LogInfo "Models are saved in file: ./models/test. Training finished"]
  /\ shuffles (trace trained_object) = 3.
Proof. split; reflexivity. Qed.

(** Whatever the back end, the state and the arguments: a call of [train]
    that completes has added exactly two files, ["vae.h5"] and
    ["encoder.h5"], and [model_to_use] plays no part in their paths. *)
Lemma train_writes_working_directory {B : Backend}
      (td : AnnData) (uv : bool) (vd : option AnnData) (ne bs esl : nat)
      (th : R) (ir sh : bool) (s : State) :
  fst (train td uv vd ne bs esl th ir sh s) = Ok tt ->
  exists vae encoder,
    fs (snd (train td uv vd ne bs esl th ir sh s))
    = ("encoder.h5"%string, encoder) :: ("vae.h5"%string, vae) :: fs s.
Proof.
  unfold train, vae_model_fit, model_save, write_file, update_self, emit.
  unfold bind, modify, fresh_draw, get, ret, raise.
  destruct ir, sh, uv, vd as [v|];
    cbn [fst snd self fs draws trace negb andb is_None is_not_None];
    try (intros; discriminate);
    repeat train_step;
    match goal with
    | |- context [fit_loop ?a ?b ?c ?d ?e ?f ?g ?h ?i ?st] =>
        destruct (fit_loop_events a b c d e f g h i st)
          as (k & s' & -> & _ & _ & _ & Hf)
    end;
    cbn [fst snd self fs draws trace] in *;
    intros _; rewrite Hf; now eexists _, _.
Qed.

(** C4 (the defect).  As in the docstring examples, the object is
    configured with [model_path="./models/test"]; [train] completes and
    writes ["vae.h5"] and ["encoder.h5"], paths relative to the working
    directory; nothing exists at the configured path, although the closing
    log line names it, and [restore_model], which reads
    [os.path.join(model_to_use, 'vae.h5')], fails right after. *)
Lemma train_saves_outside_model_path :
  model_to_use (self fresh_object) = "./models/test"%string
  /\ fst (train four_cells false None 2 32 20 0.0025%R true true fresh_object)
     = Ok tt
  /\ map fst (fs trained_object) = ["encoder.h5"; "vae.h5"]%string
  /\ lookup (fs trained_object)
            (os_path_join (model_to_use (self trained_object)) "vae.h5")
     = None
  /\ fst (restore_model trained_object)
     = Raise (OSError "./models/test/vae.h5").
Proof. repeat split; reflexivity. Qed.

(* ================================================================== *)
(** * Reconstruction and interpolation *)

(** C9.  [reconstruct] does not depend on [use_data]: with either value it
    hands [data] as it is to the decoder model, which takes it for a batch
    of latent vectors (or it fails for want of a decoder model), without
    any call of the encoder. *)
Theorem reconstruct_ignores_use_data {B : Backend} (data : ndarray) (s : State) :
  reconstruct data true s = reconstruct data false s
  /\ forall use_data,
       fst (reconstruct data use_data s)
       = match decoder_model (self s), data with
         | None, _ => Raise (AttributeError "decoder_model")
         | Some w, Mat m =>
             if widths_are (z_dim (self s)) m then Ok (decoder_forward w m)
             else Raise ValueError
         | Some _, _ => Raise ValueError
         end
       /\ trace (snd (reconstruct data use_data s))
          = trace s ++ match decoder_model (self s), data with
                       | Some _, Mat m => [DecoderPredict (shape0 m)]
                       | _, _ => []
                       end.
Proof.
  split; [reflexivity|]. intros use_data.
  unfold reconstruct, bind, get. cbn.
  destruct (decoder_model (self s)); [destruct data|]; cbn;
    try destruct (widths_are _ _); now rewrite ?app_nil_r.
Qed.

(** C10.  In [linear_interpolation] the two arms of each sparsity test are
    the same computation, so the outcome is the same whatever the test
    answers; and data whose [X] is a plain array, without an attribute [A],
    make either arm, and the whole call, fail with the same attribute
    error. *)
Theorem sparsity_test_has_no_effect {B : Backend}
        (source_adata dest_adata : AnnData) (n_steps : nat) (s : State) :
  (forall adata, average_if_sparse adata = average_otherwise adata)
  /\ (forall test,
         linear_interpolation_with test source_adata dest_adata n_steps s
         = linear_interpolation source_adata dest_adata n_steps s)
  /\ (forall m o,
         average_if_sparse {| X := NdArray m; obs := o |}
         = Raise (AttributeError "A")
         /\ average_otherwise {| X := NdArray m; obs := o |}
            = Raise (AttributeError "A"))
  /\ (forall m o,
         fst (linear_interpolation {| X := NdArray m; obs := o |}
                                   dest_adata n_steps s)
         = Raise (AttributeError "A")).
Proof.
  repeat split.
  intros test. unfold linear_interpolation, linear_interpolation_with.
  destruct (test (X source_adata)), (sparse.issparse (X source_adata)),
    (test (X dest_adata)), (sparse.issparse (X dest_adata)); reflexivity.
Qed.

(* ================================================================== *)
(** * Encoding *)

Section Encoding.
Context {B : Backend}.
Local Open Scope R_scope.

Lemma has_shape_map (f : R -> R) n d (a : tensor2) :
  has_shape n d a -> has_shape n d (map (map f) a).
Proof.
  intros [Hn Hr]. split; [now rewrite length_map|].
  apply Forall_map. eapply Forall_impl; [|exact Hr].
  intros row Hrow. now rewrite length_map.
Qed.

Lemma has_shape_map2 (f : R -> R -> R) n d (a b : tensor2) :
  has_shape n d a -> has_shape n d b -> has_shape n d (map2 (map2 f) a b).
Proof.
  intros [Ha Ra] [Hb Rb]. subst n. revert b Hb Rb.
  induction a as [|x a IH]; intros [|y b] Hb Rb; cbn in Hb; try discriminate.
  - split; [reflexivity | constructor].
  - inversion Ra as [|? ? Hx Ra']; inversion Rb as [|? ? Hy Rb']; subst.
    destruct (IH Ra' b) as [Hl Hr]; [congruence | assumption |].
    split; cbn; [now rewrite Hl|].
    constructor; [|exact Hr]. rewrite map2_length; lia.
Qed.

Lemma has_shape_random_normal draw n d (mu : tensor2) :
  has_shape n d mu -> has_shape n d (K.random_normal draw n (shape1 mu)).
Proof.
  intros [Hn Hr]. unfold K.random_normal. split.
  - now rewrite length_map, length_seq.
  - apply Forall_map, Forall_forall. intros i Hi.
    rewrite length_map, length_seq. unfold shape1.
    destruct mu as [|row mu]; cbn in *.
    + subst n. destruct Hi.
    + now inversion Hr.
Qed.

Lemma nth_map_seq {A} (f : nat -> A) (n i : nat) (d : A) :
  (i < n)%nat -> nth i (map f (seq 0 n)) d = f i.
Proof.
  intros Hi. rewrite (nth_indep _ d (f 0%nat))
    by now rewrite length_map, length_seq.
  rewrite map_nth. now rewrite seq_nth.
Qed.

Lemma random_normal_entry draw n d i j :
  (i < n)%nat -> (j < d)%nat -> entry (K.random_normal draw n d) i j = draw i j.
Proof.
  intros Hi Hj. unfold entry, K.random_normal.
  rewrite (nth_map_seq _ _ Hi). now rewrite (nth_map_seq _ _ Hj).
Qed.

Lemma entry_map (f : R -> R) n d (a : tensor2) i j :
  has_shape n d a -> (i < n)%nat -> (j < d)%nat ->
  entry (map (map f) a) i j = f (entry a i j).
Proof.
  intros Ha Hi Hj. pose proof (has_shape_row Ha Hi) as Hrow.
  destruct Ha as [Hn _]. unfold entry.
  rewrite (nth_indep _ [] (map f [])) by (rewrite length_map; lia).
  rewrite map_nth.
  rewrite (nth_indep _ 0 (f 0)) by (rewrite length_map; lia).
  now rewrite map_nth.
Qed.

Lemma entry_map2 (f : R -> R -> R) n d (a b : tensor2) i j :
  has_shape n d a -> has_shape n d b -> (i < n)%nat -> (j < d)%nat ->
  entry (map2 (map2 f) a b) i j = f (entry a i j) (entry b i j).
Proof.
  intros Ha Hb Hi Hj. pose proof (has_shape_row Ha Hi) as Hra.
  pose proof (has_shape_row Hb Hi) as Hrb.
  destruct Ha as [Hna _], Hb as [Hnb _]. unfold entry.
  rewrite (map2_nth _ _ _ [] [] []) by lia.
  now rewrite (map2_nth _ _ _ 0 0 0) by lia.
Qed.

(** The sample: of the shape of the mean, and entry by entry the mean plus
    the scaled noise. *)
Lemma sample_z_shape draw n d (mu log_var : tensor2) :
  has_shape n d mu -> has_shape n d log_var ->
  has_shape n d (_sample_z (mu, log_var) draw).
Proof.
  intros Hm Hl. unfold _sample_z, K.add, K.mul, K.exp, K.div_scalar, shape0.
  destruct Hm as [Hn Hr]. rewrite Hn.
  apply has_shape_map2; [now split|].
  apply has_shape_map2; [now do 2 apply has_shape_map|].
  apply has_shape_random_normal. now split.
Qed.

Lemma sample_z_entry draw n d (mu log_var : tensor2) i j :
  has_shape n d mu -> has_shape n d log_var -> (i < n)%nat -> (j < d)%nat ->
  entry (_sample_z (mu, log_var) draw) i j
  = entry mu i j + exp (entry log_var i j / 2) * draw i j.
Proof.
  intros Hm Hl Hi Hj.
  assert (Hs : shape1 mu = d).
  { destruct Hm as [Hn Hr]. unfold shape1.
    destruct mu as [|row mu]; cbn in *; [lia | now inversion Hr]. }
  assert (Hn : shape0 mu = n) by apply Hm.
  unfold _sample_z, K.add, K.mul, K.exp, K.div_scalar. rewrite Hn, Hs.
  pose proof (has_shape_random_normal draw Hm) as He. rewrite Hs in He.
  rewrite (@entry_map2 Rplus n d); trivial.
  2:{ apply has_shape_map2; [now do 2 apply has_shape_map | exact He]. }
  rewrite (@entry_map2 Rmult n d); trivial.
  2:{ now do 2 apply has_shape_map. }
  rewrite (@entry_map exp n d); trivial.
  2:{ now apply has_shape_map. }
  rewrite (@entry_map (fun x => x / 2) n d); trivial.
  now rewrite random_normal_entry.
Qed.

Lemma has_shape_widths n d (x : tensor2) :
  has_shape n d x -> (1 <= n)%nat -> widths_are d x = true.
Proof.
  intros [Hn Hr] H. unfold widths_are.
  destruct x as [|row0 x]; [cbn in Hn; lia|].
  apply forallb_forall.
  rewrite Forall_forall in Hr. intros row Hrow.
  now rewrite (Hr row Hrow), Nat.eqb_refl.
Qed.

Lemma to_latent_restored data s :
  model_outputs (encoder_model (self s)) = Out_Z ->
  widths_are (x_dim (self s)) (content data) = true ->
  to_latent data s
  = (Ok (Single (_sample_z (encoder_forward (layers (self s)) (content data))
                           (random_normal (draws s)))),
     {| self := self s; fs := fs s; draws := S (draws s);
        trace := trace s ++ [EncoderPredict (shape0 (content data))] |}).
Proof.
  intros H Hw. unfold to_latent, keras_predict, bind, get, emit, modify,
    fresh_draw, ret. cbn. rewrite Hw.
  destruct (encoder_forward _ _) as [mu log_var]. now rewrite H.
Qed.

Lemma restore_model_attributes s :
  fst (restore_model s) = Ok tt ->
  model_outputs (encoder_model (self (snd (restore_model s)))) = Out_Z
  /\ decoder_model (self (snd (restore_model s))) <> None.
Proof.
  unfold restore_model, bind, get, emit, modify, fresh_draw, update_self,
    raise. cbn.
  destruct (lookup (fs s) _) as [a|]; cbn; [|discriminate].
  destruct (h5_outputs a); cbn; try discriminate.
  intros _. split; [reflexivity | discriminate].
Qed.
End Encoding.

(** C1 (amended).  On an object whose encoder model is the one assigned by
    [restore_model], [to_latent] maps a batch of shape [[n, x_dim]] with at
    least one row to an array of shape [[n, z_dim]], which is the output of
    the sampling layer: entry by entry the mean plus [exp(log_var / 2)]
    times the normal draw made by the call.  The sampler is not bypassed. *)
Theorem to_latent_returns_the_sample {B : Backend}
        (data : matrix_like) (n : nat) (s : State) :
  let o := self s in
  let mu := fst (encoder_forward (layers o) (content data)) in
  let log_var := snd (encoder_forward (layers o) (content data)) in
  model_outputs (encoder_model o) = Out_Z ->
  encoder_shaped o ->
  has_shape n (x_dim o) (content data) ->
  1 <= n ->
  exists z,
    fst (to_latent data s) = Ok (Single z)
    /\ has_shape n (z_dim o) z
    /\ forall i j, i < n -> j < z_dim o ->
         entry z i j
         = (entry mu i j
            + exp (entry log_var i j / 2) * random_normal (draws s) i j)%R.
Proof.
  intros o mu log_var Hz Henc Hdata Hn.
  destruct (Henc n (content data) Hdata) as [Hm Hl]. fold mu log_var in Hm, Hl.
  rewrite (to_latent_restored data s Hz (has_shape_widths Hdata Hn)).
  cbn [fst]. fold o.
  rewrite (surjective_pairing (encoder_forward (layers o) (content data))).
  fold mu log_var. eexists. split; [reflexivity|]. split.
  - now apply sample_z_shape.
  - intros i j Hi Hj. now apply sample_z_entry with (n := n) (d := z_dim o).
Qed.

Lemma small_backend_shaped (s : @State small_backend) :
  layers (self s) = (x_dim (self s), z_dim (self s)) ->
  @encoder_shaped small_backend (self s).
Proof.
  intros Hw n x [Hn _]. rewrite Hw. cbn.
  split; (split; [now rewrite length_map|]);
    apply Forall_map, Forall_forall; intros row _; apply repeat_length.
Defined.

Lemma to_latent_returns_the_sample_witness :
  exists z,
    fst (to_latent (NdArray [[1; 2; 3]; [4; 5; 6]]%R) restored_object)
    = Ok (Single z)
    /\ has_shape 2 2 z
    /\ forall i j, i < 2 -> j < 2 ->
         entry z i j
         = (entry [[0; 0]; [0; 0]] i j
            + exp (entry [[0; 0]; [0; 0]] i j / 2) * INR 2)%R.
Proof.
  apply (@to_latent_returns_the_sample small_backend
           (NdArray [[1; 2; 3]; [4; 5; 6]]%R) 2 restored_object).
  - reflexivity.
  - apply small_backend_shaped. reflexivity.
  - split; [reflexivity | repeat constructor].
  - lia.
Defined.

(** C1, as first stated, fails.  On the object as constructed, [to_latent]
    returns the Python list of the three outputs of the encoder model.  On
    the restored object it returns the sample: not the mean, and not the
    same array when the call is repeated on the same data with the same
    weights. *)
Lemma to_latent_is_not_the_mean :
  let data := NdArray [[1; 2; 3]; [4; 5; 6]]%R in
  let mean := fst (@encoder_forward small_backend
                     (layers (self restored_object)) (content data)) in
  let again := snd (to_latent data restored_object) in
  (exists z, fst (to_latent data fresh_object) = Ok (Outputs [mean; mean; z]))
  /\ fst (to_latent data restored_object) <> Ok (Single mean)
  /\ layers (self again) = layers (self restored_object)
  /\ fst (to_latent data again) <> fst (to_latent data restored_object).
Proof.
  cbn zeta. split; [eexists; reflexivity|].
  assert (E : exp (0 / 2) = 1%R)
    by (replace (0 / 2)%R with 0%R by lra; apply exp_0).
  split; [|split; [reflexivity|]].
  - intros H. injection H as H1 H2 H3 H4. rewrite E in H1. lra.
  - intros H. injection H as H1 H2 H3 H4. rewrite E in H1. lra.
Qed.

(* ================================================================== *)
(** * The average vector *)

(** Before [restore_model], whatever the back end: for a batch of the width
    of the network, [to_latent] returns the list of the mean, the
    log-variance and the sample, and [_avg_vector] a matrix with as many
    rows as the mean has. *)
Lemma avg_vector_unrestored {B : Backend} (data : matrix_like) (s : State) :
  unrestored s ->
  widths_are (x_dim (self s)) (content data) = true ->
  exists mu log_var z m,
    fst (to_latent data s) = Ok (Outputs [mu; log_var; z])
    /\ encoder_forward (layers (self s)) (content data) = (mu, log_var)
    /\ fst (_avg_vector data s) = Ok (Mat m)
    /\ length m = length mu.
Proof.
  intros Hs Hw. destruct (unrestored_attributes Hs) as [_ He].
  unfold _avg_vector, to_latent, keras_predict, bind, get, emit, modify,
    fresh_draw, ret. cbn. rewrite Hw.
  destruct (encoder_forward _ _) as [mu log_var]. rewrite He. cbn.
  eexists mu, log_var, _, _. repeat split.
  now rewrite length_map, length_seq.
Qed.

(** C2 (the defect).  On the object as constructed, and likewise after
    training, the encoder model has three outputs, [to_latent] returns the
    list of the three arrays, and [numpy.average(latent, axis=0)] averages
    over that list: for a batch of two samples [_avg_vector] returns a
    matrix with one row per sample, each entry the mean of the mean, the
    log-variance and the sample at that place, and no single latent
    vector. *)
Lemma avg_vector_before_restore :
  let data := NdArray [[1; 2; 3]; [4; 5; 6]]%R in
  unrestored trained_object
  /\ (exists z,
         fst (to_latent data trained_object)
         = Ok (Outputs [[[0; 0]; [0; 0]]; [[0; 0]; [0; 0]]; z])%R
         /\ fst (_avg_vector data trained_object)
            = Ok (np.average_axis0
                    (Cube [[[0; 0]; [0; 0]]; [[0; 0]; [0; 0]]; z]))%R)
  /\ exists m,
       fst (_avg_vector data trained_object) = Ok (Mat m)
       /\ has_shape 2 2 m.
Proof.
  cbn zeta. split; [|split].
  - unfold trained_object, fresh_object. apply unrestored_train, unrestored_init.
  - eexists. split; reflexivity.
  - eexists. split; [reflexivity|]. split; [reflexivity | repeat constructor].
Qed.

(** ** After [restore_model]

    The encoder model assigned by [restore_model] has the single output [Z];
    with it the average vector is the mean across the samples, and the
    delta of [predict] is a latent vector. *)
Section Restored.
Context {B : Backend}.
Local Open Scope R_scope.

Lemma avg_vector_after_restore (data : matrix_like) (n : nat) (s : State) :
  model_outputs (encoder_model (self s)) = Out_Z ->
  encoder_shaped (self s) ->
  has_shape n (x_dim (self s)) (content data) -> (1 <= n)%nat ->
  exists z,
    fst (to_latent data s) = Ok (Single z)
    /\ has_shape n (z_dim (self s)) z
    /\ _avg_vector data s
       = (Ok (Vec (np.mean_axis0 z)),
          {| self := self s; fs := fs s; draws := S (draws s);
             trace := trace s ++ [EncoderPredict (shape0 (content data))] |})
    /\ length (np.mean_axis0 z) = z_dim (self s)
    /\ forall j, (j < z_dim (self s))%nat ->
         nth j (np.mean_axis0 z) 0 = sum_upto n (fun i => entry z i j) / INR n.
Proof.
  intros Hz Henc Hdata Hn.
  destruct (Henc n (content data) Hdata) as [Hm Hl].
  pose proof (to_latent_restored data s Hz (has_shape_widths Hdata Hn)) as E.
  rewrite (surjective_pairing (encoder_forward _ _)) in E.
  pose proof (sample_z_shape (random_normal (draws s)) Hm Hl) as Hs.
  set (z := _sample_z _ _) in *.
  assert (Hw : shape1 z = z_dim (self s)).
  { destruct Hs as [Hlen Hrows]. unfold shape1.
    destruct z as [|row z']; cbn in *; [lia | now inversion Hrows]. }
  exists z. split; [now rewrite E|]. split; [exact Hs|]. split; [|split].
  - unfold _avg_vector. erewrite bind_ok by exact E. reflexivity.
  - now rewrite mean_axis0_length.
  - intros j Hj. unfold np.mean_axis0. rewrite Hw, (nth_map_seq _ _ Hj).
    unfold mean. rewrite length_map, (total_map_nth []).
    destruct Hs as [-> _]. reflexivity.
Qed.

Lemma rmapM_length {X Y} (f : X -> result Y) (l : list X) (r : list Y) :
  rmapM f l = Ok r -> length r = length l.
Proof.
  revert r. induction l as [|x l IH]; intros r; cbn [rmapM].
  - now intros [= <-].
  - destruct (f x) as [y|e]; cbn; [|discriminate].
    destruct (rmapM f l) as [ys|e]; cbn; [|discriminate].
    intros [= <-]. cbn. now rewrite (IH ys).
Qed.

Lemma take_rows_shape (ind : list nat) (m rows : tensor2) (n d : nat) :
  has_shape n d m -> np.take_rows ind m = Ok rows ->
  has_shape (length ind) d rows.
Proof.
  intros [_ Hm] H. split; [now apply rmapM_length in H|].
  revert rows H. unfold np.take_rows.
  induction ind as [|i ind IH]; intros rows; cbn [rmapM].
  - intros [= <-]. constructor.
  - destruct (nth_error m i) as [row|] eqn:Hi; cbn; [|discriminate].
    destruct (rmapM _ ind) as [rs|e]; cbn; [|discriminate].
    intros [= <-]. constructor; [|now apply IH].
    rewrite Forall_forall in Hm. eapply Hm, nth_error_In, Hi.
Qed.

Lemma subtract_vectors (u v : list R) (delta : ndarray) :
  length u = length v -> np.subtract (Vec u) (Vec v) = Ok delta ->
  exists d, delta = Vec d /\ length d = length u.
Proof.
  intros Hlen. unfold np.subtract, np.binop, np.op1, np.broadcast.
  rewrite Hlen, Nat.eqb_refl.
  destruct (rmapM _ _) as [r|e] eqn:E; cbn; [|discriminate].
  intros [= <-]. exists r. split; [reflexivity|].
  apply rmapM_length in E. rewrite E, length_combine. lia.
Qed.

(** The average vector of the rows [ind] of a subset. *)
Lemma avg_vector_of_rows (x : matrix_like) (ind : list nat) (n : nat)
      (rows : matrix_like) (s s' : State) (latent : ndarray) :
  model_outputs (encoder_model (self s)) = Out_Z ->
  encoder_shaped (self s) ->
  has_shape n (x_dim (self s)) (content x) -> (1 <= length ind)%nat ->
  index_rows x ind = Ok rows ->
  _avg_vector rows s = (Ok latent, s') ->
  self s' = self s
  /\ exists v, latent = Vec v /\ length v = z_dim (self s).
Proof.
  intros Hz Henc Hx Hind Hrows Havg.
  assert (Hshape : has_shape (length ind) (x_dim (self s)) (content rows)).
  { destruct x as [m|m]; cbn in Hrows, Hx;
      destruct (np.take_rows ind m) as [r|e] eqn:E; cbn in Hrows;
      try discriminate; injection Hrows as <-; cbn;
      eapply take_rows_shape; eauto. }
  destruct (avg_vector_after_restore rows s Hz Henc Hshape Hind)
    as (z & _ & _ & E & Hlen & _).
  rewrite E in Havg. injection Havg as <- <-. split; [reflexivity|].
  now eexists.
Qed.

Tactic Notation "inv_bind" hyp(H) "as" ident(x) ident(st) ident(E) :=
  apply bind_ok_inv in H as (x & st & E & H).

(** [E : lift r s = (Ok x, st)] becomes [E : r = Ok x], and [st] is [s]. *)
Ltac inv_lift E st :=
  unfold lift in E; apply pair_equal_spec in E as [E ?]; subst st.

(** With the restored encoder model, whenever the second half of [predict]
    returns for non-empty control and stimulated subsets, the delta it
    returns is a vector of length [z_dim], whatever the sizes of the
    subsets. *)
Lemma predict_target_delta_dimension
      (adata : AnnData) (conds : dict string) (atp : option AnnData)
      (ctp : option string) (ctrl_x stim_x : AnnData) (nc ns : nat)
      (s s' : State) (cells : tensor2) (delta : ndarray) :
  (forall k n size, length (random_choice k n size) = size) ->
  model_outputs (encoder_model (self s)) = Out_Z ->
  encoder_shaped (self s) ->
  has_shape nc (x_dim (self s)) (content (X ctrl_x)) ->
  has_shape ns (x_dim (self s)) (content (X stim_x)) ->
  (1 <= nc)%nat -> (1 <= ns)%nat ->
  predict_target adata conds atp ctp ctrl_x stim_x s = (Ok (cells, delta), s') ->
  exists d, delta = Vec d /\ length d = z_dim (self s).
Proof.
  intros Hchoice Hz Henc Hc Hs Hnc Hns H.
  unfold predict_target in H.
  inv_bind H as ctrl_pred s1 E1.
  assert (S1 : self s1 = self s).
  { eapply preserves_at; [|exact E1]. unfold call_extractor. preserves_tac. }
  inv_bind H as cd_ind s2 E2. inv_bind H as stim_ind s3 E3.
  assert (Hcd : length cd_ind = Nat.min nc ns /\ self s2 = self s1).
  { unfold choice, bind, fresh_draw, emit, modify, ret in E2. cbn in E2.
    injection E2 as <- <-. rewrite Hchoice. unfold shape0.
    destruct Hc as [-> _], Hs as [-> _]. now split. }
  assert (Hst : length stim_ind = Nat.min nc ns /\ self s3 = self s2).
  { unfold choice, bind, fresh_draw, emit, modify, ret in E3. cbn in E3.
    injection E3 as <- <-. rewrite Hchoice. unfold shape0.
    destruct Hc as [-> _], Hs as [-> _]. now split. }
  destruct Hcd as [Lcd S2], Hst as [Lst S3].
  assert (S3' : self s3 = self s) by congruence.
  inv_bind H as latents s4 E4. destruct latents as [latent_ctrl latent_sim].
  inv_bind H as delta0 s5 E5.
  assert (Hdelta : delta0 = delta).
  { inv_bind H as latent_cd s6 E6. inv_bind H as stim_pred s7 E7.
    inv_bind H as predicted_cells s8 E8. unfold ret in H. now injection H. }
  subst delta0. clear H. inv_lift E5 s5.
  assert (Hl : exists v1 v2, latent_ctrl = Vec v1 /\ latent_sim = Vec v2
                 /\ length v1 = z_dim (self s) /\ length v2 = z_dim (self s)).
  { rewrite <- S3' in Hz, Henc, Hc, Hs |- *.
    destruct (sparse.issparse (X ctrl_x) && sparse.issparse (X stim_x)).
    - inv_bind E4 as dense_c t1 D1. inv_lift D1 t1.
      inv_bind E4 as rows_c t2 R1. inv_lift R1 t2.
      inv_bind E4 as lc t3 A1.
      inv_bind E4 as dense_s t4 D2. inv_lift D2 t4.
      inv_bind E4 as rows_s t5 R2. inv_lift R2 t5.
      inv_bind E4 as ls t6 A2. unfold ret in E4.
      injection E4 as <- <- <-.
      assert (X1 : index_rows (NdArray dense_c) cd_ind = Ok (NdArray rows_c))
        by (cbn; now rewrite R1).
      assert (X2 : index_rows (NdArray dense_s) stim_ind = Ok (NdArray rows_s))
        by (cbn; now rewrite R2).
      assert (C1 : content (X ctrl_x) = dense_c)
        by (destruct (X ctrl_x); cbn in D1 |- *; congruence).
      assert (C2 : content (X stim_x) = dense_s)
        by (destruct (X stim_x); cbn in D2 |- *; congruence).
      rewrite C1 in Hc. rewrite C2 in Hs.
      destruct (avg_vector_of_rows (NdArray dense_c) cd_ind s3 Hz Henc Hc
                  ltac:(lia) X1 A1) as (S6 & v1 & -> & L1).
      rewrite <- S6 in Hz, Henc, Hs, L1 |- *.
      destruct (avg_vector_of_rows (NdArray dense_s) stim_ind t3 Hz Henc Hs
                  ltac:(lia) X2 A2) as (S7 & v2 & -> & L2).
      now exists v1, v2.
    - inv_bind E4 as rows_c t1 R1. inv_lift R1 t1.
      inv_bind E4 as lc t2 A1.
      inv_bind E4 as rows_s t3 R2. inv_lift R2 t3.
      inv_bind E4 as ls t4 A2. unfold ret in E4.
      injection E4 as <- <- <-.
      destruct (avg_vector_of_rows (X ctrl_x) cd_ind s3 Hz Henc Hc
                  ltac:(lia) R1 A1) as (S6 & v1 & -> & L1).
      rewrite <- S6 in Hz, Henc, Hs, L1 |- *.
      destruct (avg_vector_of_rows (X stim_x) stim_ind t2 Hz Henc Hs
                  ltac:(lia) R2 A2) as (S7 & v2 & -> & L2).
      now exists v1, v2. }
  destruct Hl as (v1 & v2 & -> & -> & L1 & L2).
  destruct (subtract_vectors v2 v1 ltac:(congruence) E5) as (d & -> & Ld).
  exists d. split; [reflexivity | congruence].
Qed.
End Restored.

(** A call of [predict] on the restored object of the examples: it returns,
    and the delta is a vector of length [z_dim]. *)
Lemma predict_after_restore_example :
  exists cells d,
    fst (predict four_cells ctrl_stim None (Some "CD4T"%string) (ObsStr "all")
                 restored_object)
    = Ok (cells, Vec d)
    /\ length d = z_dim (self restored_object)
    /\ has_shape 4 (x_dim (self restored_object)) cells.
Proof.
  lazy -[Rplus Rminus Rmult Rdiv Rinv INR IZR exp].
  eexists _, _. split; [reflexivity|]. split; [reflexivity|].
  repeat constructor.
Qed.

(** [linear_interpolation] on the objects of the examples: before
    [restore_model] it fails on [X.A] for dense data and on [start.shape] for
    sparse data; on the restored object it returns one reconstructed vector
    for each step. *)
Lemma linear_interpolation_examples :
  fst (linear_interpolation four_cells four_cells 2 fresh_object)
  = Raise (AttributeError "A")
  /\ fst (linear_interpolation four_cells_sparse four_cells_sparse 2
                               fresh_object)
     = Raise (AttributeError "shape")
  /\ exists rows,
       fst (linear_interpolation four_cells_sparse four_cells_sparse 2
                                 restored_object)
       = Ok rows
       /\ has_shape 2 (x_dim (self restored_object)) rows.
Proof.
  split; [reflexivity|]. split; [reflexivity|].
  lazy -[Rplus Rminus Rmult Rdiv Rinv INR IZR exp].
  eexists. split; [reflexivity|]. split; [reflexivity | repeat constructor].
Qed.

(* ================================================================== *)
(** * The loss *)

Section Loss.
Local Open Scope R_scope.

Lemma total_nonneg (v : list R) : Forall (fun x => 0 <= x) v -> 0 <= total v.
Proof.
  induction 1 as [|x v Hx _ IH]; cbn; [lra|]. fold (total v). lra.
Qed.

Lemma mean_nonneg (v : list R) : Forall (fun x => 0 <= x) v -> 0 <= mean v.
Proof.
  intros H. unfold mean. destruct v as [|x v].
  - cbn. unfold Rdiv. rewrite Rmult_0_l. lra.
  - apply Rmult_le_pos; [now apply total_nonneg|].
    apply Rlt_le, Rinv_0_lt_compat, lt_0_INR. cbn. lia.
Qed.

Lemma squares_nonneg (v : list R) :
  Forall (fun x => 0 <= x) (map (fun x => x * x) v).
Proof. apply Forall_map, Forall_forall. intros x _. nra. Qed.

(** One term of the KL sum: [exp(l) + m^2 - 1 - l], never negative. *)
Lemma kl_terms_nonneg (m l : list R) :
  Forall (fun x => 0 <= x)
         (map2 Rminus
            (map (fun x => x - 1)
               (map2 Rplus (map exp l) (map (fun x => x * x) m))) l).
Proof.
  revert m. induction l as [|y l IH]; intros [|x m]; cbn; constructor.
  - pose proof (exp_ineq1_le y). nra.
  - apply IH.
Qed.

Lemma recon_loss_nonneg (y_true y_pred : tensor2) :
  Forall (fun x => 0 <= x) (recon_loss y_true y_pred).
Proof.
  unfold recon_loss, K.scale, K.sum_axis1, K.square.
  rewrite map_map. apply Forall_map, Forall_map, Forall_forall. intros row _.
  pose proof (total_nonneg (squares_nonneg row)). lra.
Qed.

Lemma kl_loss_nonneg (mu log_var : tensor2) :
  Forall (fun x => 0 <= x) (kl_loss mu log_var).
Proof.
  unfold kl_loss, K.scale, K.sum_axis1, K.sub, K.sub_scalar, K.add, K.exp,
    K.square.
  apply Forall_map, Forall_map. revert mu.
  induction log_var as [|l log_var IH]; intros [|m mu]; cbn; constructor.
  - pose proof (total_nonneg (kl_terms_nonneg m l)). lra.
  - apply IH.
Qed.

Lemma map2_nonneg (f : R -> R -> R) (a b : list R) :
  (forall x y, 0 <= x -> 0 <= y -> 0 <= f x y) ->
  Forall (fun x => 0 <= x) a -> Forall (fun x => 0 <= x) b ->
  Forall (fun x => 0 <= x) (map2 f a b).
Proof.
  intros Hf Ha. revert b. induction Ha as [|x a Hx _ IH]; intros b Hb.
  - constructor.
  - destruct Hb as [|y b Hy Hb]; cbn; constructor; auto.
Qed.
End Loss.

(** X1.  The loss is never negative: the reconstruction term is a sum of
    squares, and every term [exp(log_var) + mean^2 - 1 - log_var] of the KL
    sum is at least 0. *)
Theorem vae_loss_nonneg (mu log_var y_true y_pred : tensor2) :
  (0 <= vae_loss mu log_var y_true y_pred)%R
  /\ Forall (fun x => 0 <= x)%R (recon_loss y_true y_pred)
  /\ Forall (fun x => 0 <= x)%R (kl_loss mu log_var).
Proof.
  split; [|split; [apply recon_loss_nonneg | apply kl_loss_nonneg]].
  unfold vae_loss, K.mean, K.vadd. apply mean_nonneg.
  apply map2_nonneg; [intros; lra | apply recon_loss_nonneg |].
  unfold K.scale. apply Forall_map.
  eapply Forall_impl; [|apply kl_loss_nonneg]. cbn. intros x Hx. lra.
Qed.

Section KLZero.
Local Open Scope R_scope.

Lemma kl_row_zero (m l : list R) :
  length m = length l ->
  total (map2 Rminus
           (map (fun x => x - 1)
              (map2 Rplus (map exp l) (map (fun x => x * x) m))) l) = 0 ->
  m = repeat 0 (length m) /\ l = repeat 0 (length l).
Proof.
  revert l. induction m as [|x m IH]; intros [|y l] Hlen; cbn in Hlen;
    try discriminate; [now split|].
  cbn [map map2 total fold_right length repeat].
  match goal with |- _ + fold_right Rplus 0 ?t = 0 -> _ => fold (total t) end.
  intros H.
  pose proof (total_nonneg (kl_terms_nonneg m l)) as Hrest.
  pose proof (exp_ineq1_le y) as Hy.
  assert (Hx : 0 <= x * x) by nra.
  assert (Hxx : x * x = 0) by lra.
  assert (Hey : exp y = 1 + y) by lra.
  assert (Hy0 : y = 0).
  { destruct (Req_dec y 0) as [E|E]; [exact E|].
    pose proof (exp_ineq1 y E). lra. }
  assert (Hx0 : x = 0) by nra.
  destruct (IH l) as [Hm Hl]; [lia | lra |].
  subst x y. split; f_equal; assumption.
Qed.

Lemma kl_loss_zero_inv (n d : nat) (mu log_var : tensor2) :
  has_shape n d mu -> has_shape n d log_var ->
  kl_loss mu log_var = repeat 0 n ->
  mu = np.zeros n d /\ log_var = np.zeros n d.
Proof.
  intros [Hn Hr] [Hn' Hr']. subst n. revert log_var Hn' Hr'.
  unfold kl_loss, K.scale, K.sum_axis1, K.sub, K.sub_scalar, K.add, K.exp,
    K.square, np.zeros.
  induction mu as [|m mu IH]; intros [|l log_var] Hn' Hr'; cbn in Hn';
    try discriminate; [now split|].
  cbn [map map2 length repeat]. intros H. injection H as Hrow Hrest.
  pose proof (Forall_inv Hr) as Lm. pose proof (Forall_inv_tail Hr) as Hr1.
  pose proof (Forall_inv Hr') as Ll. pose proof (Forall_inv_tail Hr') as Hr1'.
  cbn beta in Lm, Ll.
  destruct (kl_row_zero m l) as [Em El]; [congruence | lra |].
  destruct (IH Hr1 log_var) as [Emu Elv]; [lia | assumption | assumption |].
  rewrite Lm in Em. rewrite Ll in El.
  split; f_equal; congruence.
Qed.
End KLZero.

(** X2.  Over the reals, the KL terms of a batch are all 0 exactly when the
    mean and the log-variance are 0 in every latent dimension of every
    sample.  (In floating point the "only if" can fail: a mean so small
    that its square underflows leaves a term of 0.) *)
Theorem kl_loss_zero_iff (n d : nat) (mu log_var : tensor2) :
  has_shape n d mu -> has_shape n d log_var ->
  kl_loss mu log_var = repeat 0%R n
  <-> mu = np.zeros n d /\ log_var = np.zeros n d.
Proof.
  intros Hm Hl. split.
  - now apply kl_loss_zero_inv.
  - intros [-> ->]. apply kl_loss_zeros.
Qed.

Lemma kl_loss_zero_iff_witness :
  kl_loss [[0; 0]]%R [[0; 0]]%R = repeat 0%R 1
  <-> [[0; 0]]%R = np.zeros 1 2 /\ [[0; 0]]%R = np.zeros 1 2.
Proof.
  apply (@kl_loss_zero_iff 1 2 [[0; 0]]%R [[0; 0]]%R);
    (split; [reflexivity | repeat constructor]).
Defined.

(* ================================================================== *)
(** * Saving and restoring *)

Section SaveRestore.
Context {B : Backend}.


(** [train] on a model that is not compiled stops at [fit]; nothing is
    written and the weights are as before. *)
Lemma train_uncompiled (td : AnnData) (uv : bool) (vd : option AnnData)
      (ne bs esl : nat) (th : R) (ir sh : bool) (s : State) :
  compiled (vae_model (self s)) = false ->
  uv && is_None vd = false ->
  let restored := saver_restore (model_to_use (self s)) (sess (self s)) in
  let r := train td uv vd ne bs esl th ir sh s in
  (ir = true \/ restored <> None -> fst r = Raise RuntimeError)
  /\ (ir = false -> restored = None -> fst r = Raise ValueError)
  /\ fs (snd r) = fs s
  /\ layers (self (snd r)) = layers (self s).
Proof.
  intros Hc Hv. cbn zeta.
  unfold train, vae_model_fit, model_save, write_file, update_self, emit.
  unfold bind, modify, fresh_draw, get, ret, raise.
  destruct ir;
    [|cbn [fst snd self fs draws trace negb];
      destruct (saver_restore _ _) as [restored|]];
    destruct sh, uv, vd as [v|];
    cbn [fst snd self fs draws trace negb andb is_None is_not_None] in *;
    try discriminate;
    cbn [vae_model set_sess]; rewrite ?Hc; cbn;
    repeat split; try reflexivity; try discriminate;
    intros [H|H]; try discriminate; now destruct H.
Qed.

Lemma restore_model_uncompiled (s : State) :
  fst (restore_model s) = Ok tt ->
  compiled (vae_model (self (snd (restore_model s)))) = false.
Proof.
  unfold restore_model, bind, get, emit, modify, fresh_draw, update_self,
    raise. cbn.
  destruct (lookup (fs s) _) as [a|]; cbn; [|discriminate].
  destruct (h5_outputs a); cbn; try discriminate.
  reflexivity.
Qed.


Lemma restore_model_missing (s : State) :
  lookup (fs s) (os_path_join (model_to_use (self s)) "vae.h5") = None ->
  restore_model s
  = (Raise (OSError (os_path_join (model_to_use (self s)) "vae.h5")), s).
Proof.
  intros Hl.
  unfold restore_model, bind, get, emit, modify, fresh_draw, update_self,
    raise. cbn [fst snd].
  now rewrite Hl.
Qed.

End SaveRestore.



(** X4.  After a successful [restore_model] the object cannot be trained
    further: the VAE was loaded with [compile=False], so [train] ends with
    the RuntimeError of [fit] on a model that is not compiled, whatever the
    data and the options, provided its own validation check passes and, on
    a resumed run, the saver has restored the session; a resumed run
    without a checkpoint ends earlier, with the ValueError of the saver.
    Either way no model file is written and the restored weights are
    kept. *)
Theorem train_after_restore_fails {B : Backend}
        (td : AnnData) (uv : bool) (vd : option AnnData)
        (ne bs esl : nat) (th : R) (ir sh : bool) (s : State) :
  fst (restore_model s) = Ok tt ->
  uv && is_None vd = false ->
  let s1 := snd (restore_model s) in
  let restored := saver_restore (model_to_use (self s1)) (sess (self s1)) in
  let r := train td uv vd ne bs esl th ir sh s1 in
  (ir = true \/ restored <> None -> fst r = Raise RuntimeError)
  /\ (ir = false -> restored = None -> fst r = Raise ValueError)
  /\ fs (snd r) = fs s1
  /\ layers (self (snd r)) = layers (self s1).
Proof.
  intros H Hv. cbn zeta.
  apply train_uncompiled;
    [now apply restore_model_uncompiled | exact Hv].
Qed.

Lemma train_after_restore_fails_witness :
  fst (@train small_backend four_cells false None 2 32 20 0.0025%R true true
         restored_object)
  = Raise RuntimeError.
Proof.
  exact (proj1 (@train_after_restore_fails small_backend four_cells false None
                  2 32 20 0.0025%R true true
                  (@__init__ small_backend 3 2 docstring_kwargs saved_vae 0)
                  eq_refl eq_refl) (or_introl eq_refl)).
Defined.



(* ================================================================== *)
(** * Training without validation data *)

Section NoValidation.
Context {B : Backend}.




End NoValidation.



(* ================================================================== *)
(** * Linear interpolation *)

Section Interpolation.
Context {B : Backend}.
Local Open Scope R_scope.

Lemma rmapM_combine (f : R -> R -> R) (a b : list R) :
  rmapM (fun p => Ok (f (fst p) (snd p))) (combine a b) = Ok (map2 f a b).
Proof.
  revert b. induction a as [|x a IH]; intros [|y b]; cbn; try reflexivity.
  now rewrite IH.
Qed.

(** Two rows of one length are combined entry by entry. *)
Lemma op1_same_length (f : R -> R -> R) (a b : list R) :
  length a = length b -> np.op1 f a b = Ok (map2 f a b).
Proof.
  intros H. unfold np.op1, np.broadcast.
  rewrite H, Nat.eqb_refl. apply rmapM_combine.
Qed.

Lemma add_rows (a b : list R) :
  length a = length b ->
  np.add (Mat [a]) (Mat [b]) = Ok (Mat [map2 Rplus a b]).
Proof.
  intros H. unfold np.add, np.binop, np.op2, np.broadcast.
  cbn [length Nat.eqb combine rmapM fst snd].
  now rewrite (op1_same_length _ _ _ H).
Qed.

Lemma interpolated_eq (a b : list R) (alpha : R) :
  map2 Rplus (map (fun x => x * (1 - alpha)) a) (map (fun x => x * alpha) b)
  = interpolated a b alpha.
Proof.
  unfold interpolated. revert b.
  induction a as [|x a IH]; intros [|y b]; cbn; try reflexivity.
  now rewrite IH.
Qed.

Lemma interpolated_length (a b : list R) (alpha : R) :
  length a = length b -> length (interpolated a b alpha) = length a.
Proof. apply map2_length. Qed.

Lemma Forall_split_at {A} (P : A -> Prop) (k : nat) (l : list A) :
  Forall P l -> Forall P (firstn k l) /\ Forall P (skipn k l).
Proof.
  intros H. apply Forall_app. now rewrite firstn_skipn.
Qed.

(** The loop of [linear_interpolation]: from index [i] on, the rows of
    [vectors] are overwritten by the points of the segment, one for each
    remaining [alpha]. *)
Lemma interpolate_rows (d : nat) (start end_ : list R) :
  length start = d -> length end_ = d ->
  forall (alpha_values : list R) (i : nat) (vectors : tensor2),
    Forall (fun row => length row = d) vectors ->
    (i + length alpha_values = length vectors)%nat ->
    interpolate (Single [start]) (Single [end_]) alpha_values i vectors
    = Ok (firstn i vectors ++ map (interpolated start end_) alpha_values).
Proof.
  intros Ls Le. induction alpha_values as [|alpha rest IH];
    intros i vectors Hrows Hlen; cbn [interpolate length map] in *.
  - rewrite app_nil_r, firstn_all2 by lia. reflexivity.
  - cbn [times_float rbind np.times map].
    rewrite add_rows by (rewrite !length_map; congruence).
    cbn [rbind]. rewrite interpolated_eq.
    unfold np.set_row.
    destruct (nth_error vectors i) as [old|] eqn:Hi.
    2:{ apply nth_error_None in Hi. lia. }
    assert (Lold : length old = d).
    { rewrite Forall_forall in Hrows. eapply Hrows, nth_error_In, Hi. }
    assert (Lrow : length (interpolated start end_ alpha) = d).
    { rewrite interpolated_length; congruence. }
    rewrite Lrow, Lold, Nat.eqb_refl. cbn [rbind].
    rewrite IH.
    + f_equal.
      assert (Lf : length (firstn i vectors) = i)
        by (rewrite length_firstn; lia).
      replace (S i) with (length (firstn i vectors) + 1)%nat by lia.
      rewrite firstn_app_2. cbn [firstn]. now rewrite <- app_assoc.
    + apply Forall_app. split; [now apply Forall_split_at|].
      constructor; [exact Lrow | now apply Forall_split_at].
    + rewrite length_app, length_firstn. cbn [length].
      rewrite length_skipn. lia.
Qed.

Lemma linspace01_length (n : nat) : length (np.linspace01 n) = n.
Proof. unfold np.linspace01. now rewrite length_map, length_seq. Qed.

Lemma zeros_rows (n d : nat) :
  Forall (fun row => length row = d) (np.zeros n d).
Proof.
  unfold np.zeros. apply Forall_forall. intros row Hrow.
  apply repeat_spec in Hrow. subst row. apply repeat_length.
Qed.

Lemma interpolate_zeros (d n : nat) (start end_ : list R) :
  length start = d -> length end_ = d ->
  interpolate (Single [start]) (Single [end_]) (np.linspace01 n) 0
              (np.zeros n d)
  = Ok (map (interpolated start end_) (np.linspace01 n)).
Proof.
  intros Ls Le.
  rewrite (@interpolate_rows d start end_ Ls Le); [reflexivity | apply zeros_rows |].
  rewrite linspace01_length. unfold np.zeros. now rewrite repeat_length.
Qed.

(** The mean of a sparse data set, as one row. *)
Lemma average_if_sparse_row (adata : AnnData) (m : tensor2) :
  X adata = SparseMatrix m ->
  average_if_sparse adata = Ok [np.mean_axis0 m].
Proof.
  intros H. unfold average_if_sparse, reshape_row, n_vars. rewrite H.
  cbn [dot_A rbind content]. now rewrite mean_axis0_length, Nat.eqb_refl.
Qed.

(** The latent of one row, on a restored object. *)
Lemma to_latent_row (row : list R) (s : State) :
  model_outputs (encoder_model (self s)) = Out_Z ->
  encoder_shaped (self s) ->
  length row = x_dim (self s) ->
  exists z,
    _sample_z (encoder_forward (layers (self s)) [row])
              (random_normal (draws s)) = [z]
    /\ length z = z_dim (self s)
    /\ to_latent (NdArray [row]) s
       = (Ok (Single [z]),
          {| self := self s; fs := fs s; draws := S (draws s);
             trace := trace s ++ [EncoderPredict 1] |}).
Proof.
  intros Hz Henc Hrow.
  assert (Hshape : has_shape 1 (x_dim (self s)) [row]).
  { split; [reflexivity | now constructor]. }
  destruct (Henc 1%nat [row] Hshape) as [Hm Hl].
  pose proof (@to_latent_restored B (NdArray [row]) s Hz
                (has_shape_widths Hshape (le_n 1))) as E.
  cbn [content shape0 length] in E.
  rewrite (surjective_pairing (encoder_forward _ _)) in E |- *.
  pose proof (sample_z_shape (random_normal (draws s)) Hm Hl) as [Hn Hr].
  destruct (_sample_z _ _) as [|z [|z' zs]]; cbn in Hn; try discriminate.
  exists z. split; [reflexivity|]. split; [now inversion Hr | exact E].
Qed.

Lemma interpolated_rows (d : nat) (start end_ : list R) (alphas : list R) :
  length start = d -> length end_ = d -> alphas <> [] ->
  widths_are d (map (interpolated start end_) alphas) = true.
Proof.
  intros Ls Le Ha. unfold widths_are.
  destruct (map _ alphas) as [|row0 rows] eqn:E.
  { destruct alphas; [now destruct Ha | discriminate]. }
  rewrite <- E. apply forallb_forall.
  intros row Hrow. apply in_map_iff in Hrow as (alpha & <- & _).
  rewrite interpolated_length by congruence. rewrite Ls. apply Nat.eqb_refl.
Qed.

(** [linear_interpolation] on a restored object and sparse data of the
    width of the network. *)
Lemma linear_interpolation_run (source_adata dest_adata : AnnData)
      (ms md : tensor2) (n_steps : nat) (w : weights) (s : State) :
  X source_adata = SparseMatrix ms -> X dest_adata = SparseMatrix md ->
  shape1 ms = x_dim (self s) -> shape1 md = x_dim (self s) ->
  model_outputs (encoder_model (self s)) = Out_Z ->
  decoder_model (self s) = Some w ->
  encoder_shaped (self s) ->
  (1 <= n_steps)%nat ->
  exists start end_,
    _sample_z (encoder_forward (layers (self s)) [np.mean_axis0 ms])
              (random_normal (draws s)) = [start]
    /\ _sample_z (encoder_forward (layers (self s)) [np.mean_axis0 md])
                 (random_normal (S (draws s))) = [end_]
    /\ length start = z_dim (self s) /\ length end_ = z_dim (self s)
    /\ fst (linear_interpolation source_adata dest_adata n_steps s)
       = Ok (decoder_forward w (map (interpolated start end_)
                                    (np.linspace01 n_steps))).
Proof.
  intros Hs Hd Ws Wd Hz Hdec Henc Hn.
  destruct (@to_latent_row (np.mean_axis0 ms) s Hz Henc)
    as (start & Es & Ls & Ts); [now rewrite mean_axis0_length|].
  set (s1 := {| self := self s; fs := fs s; draws := S (draws s);
                trace := trace s ++ [EncoderPredict 1] |}) in *.
  destruct (@to_latent_row (np.mean_axis0 md) s1 Hz Henc)
    as (end_ & Ee & Le & Te); [now rewrite mean_axis0_length|].
  cbn [self draws s1] in Ee, Le.
  exists start, end_. repeat split; trivial.
  unfold linear_interpolation, linear_interpolation_with.
  rewrite Hs, Hd. cbn [sparse.issparse].
  rewrite (@average_if_sparse_row source_adata ms Hs), (@average_if_sparse_row dest_adata md Hd).
  unfold lift at 1 2. unfold bind at 1 2.
  erewrite bind_ok by exact Ts.
  erewrite bind_ok by exact Te.
  cbn [shape_1]. unfold lift at 1. unfold bind at 1.
  change (shape1 [start]) with (length start).
  rewrite Ls, (@interpolate_zeros _ n_steps start end_ Ls Le).
  unfold lift at 1. unfold bind at 1.
  unfold reconstruct, bind, get, emit, modify, ret, raise.
  cbn [fst snd self fs draws trace s1]. rewrite Hdec.
  cbn [fst snd self fs draws trace].
  rewrite (@interpolated_rows _ start end_ (np.linspace01 n_steps) Ls Le);
    [reflexivity|].
  intros E. apply (f_equal (@length R)) in E.
  rewrite linspace01_length in E. cbn in E. lia.
Qed.

Lemma interpolated_0 (a b : list R) :
  length a = length b -> interpolated a b 0 = a.
Proof.
  unfold interpolated. revert b.
  induction a as [|x a IH]; intros [|y b] H; cbn in *; try discriminate;
    try reflexivity.
  rewrite IH by lia. f_equal. lra.
Qed.

Lemma interpolated_1 (a b : list R) :
  length a = length b -> interpolated a b 1 = b.
Proof.
  unfold interpolated. revert b.
  induction a as [|x a IH]; intros [|y b] H; cbn in *; try discriminate;
    try reflexivity.
  rewrite IH by lia. f_equal. lra.
Qed.

Lemma linspace01_first (n : nat) :
  (1 <= n)%nat -> nth 0 (np.linspace01 n) 0 = 0.
Proof.
  intros H. unfold np.linspace01. rewrite nth_map_seq by lia.
  cbn [INR]. unfold Rdiv. lra.
Qed.

Lemma linspace01_last (n : nat) :
  (2 <= n)%nat -> nth (n - 1) (np.linspace01 n) 0 = 1.
Proof.
  intros H. unfold np.linspace01. rewrite nth_map_seq by lia.
  apply Rdiv_diag. apply not_0_INR. lia.
Qed.
End Interpolation.

(** X7.  On a restored object, for sparse source and destination data of the
    width of the network and at least one step, [linear_interpolation]
    returns the decoder's output for the [n_steps] points
    [start * (1 - alpha) + end * alpha], [alpha] running over
    [linspace(0, 1, n_steps)], where [start] and [end] are the sampled
    latents of the mean source cell and of the mean destination cell (two
    consecutive draws of the sampler). *)
Theorem linear_interpolation_decodes_the_segment {B : Backend}
        (source_adata dest_adata : AnnData) (ms md : tensor2)
        (n_steps : nat) (w : weights) (s : State) :
  X source_adata = SparseMatrix ms -> X dest_adata = SparseMatrix md ->
  shape1 ms = x_dim (self s) -> shape1 md = x_dim (self s) ->
  model_outputs (encoder_model (self s)) = Out_Z ->
  decoder_model (self s) = Some w ->
  encoder_shaped (self s) ->
  1 <= n_steps ->
  let start :=
    hd [] (_sample_z (encoder_forward (layers (self s)) [np.mean_axis0 ms])
                     (random_normal (draws s))) in
  let end_ :=
    hd [] (_sample_z (encoder_forward (layers (self s)) [np.mean_axis0 md])
                     (random_normal (S (draws s)))) in
  fst (linear_interpolation source_adata dest_adata n_steps s)
  = Ok (decoder_forward w (map (interpolated start end_)
                               (np.linspace01 n_steps))).
Proof.
  intros Hs Hd Ws Wd Hz Hdec Henc Hn. cbn zeta.
  destruct (@linear_interpolation_run B source_adata dest_adata ms md n_steps
              w s Hs Hd Ws Wd Hz Hdec Henc Hn) as (start & end_ & -> & -> & _ & _ & E).
  exact E.
Qed.

Lemma linear_interpolation_decodes_the_segment_witness :
  let m := content (X four_cells) in
  let start :=
    hd [] (_sample_z (@encoder_forward small_backend
                        (layers (self restored_object)) [np.mean_axis0 m])
                     (@random_normal small_backend
                        (draws restored_object))) in
  let end_ :=
    hd [] (_sample_z (@encoder_forward small_backend
                        (layers (self restored_object)) [np.mean_axis0 m])
                     (@random_normal small_backend
                        (S (draws restored_object)))) in
  fst (linear_interpolation four_cells_sparse four_cells_sparse 3
                            restored_object)
  = Ok (@decoder_forward small_backend (3, 2)
          (map (interpolated start end_) (np.linspace01 3))).
Proof.
  apply (@linear_interpolation_decodes_the_segment small_backend
           four_cells_sparse four_cells_sparse
           (content (X four_cells)) (content (X four_cells)) 3 (3, 2)
           restored_object);
    try reflexivity.
  - apply small_backend_shaped. reflexivity.
  - lia.
Defined.

(** X8.  The interpolation joins the two latents: the loop over
    [linspace(0, 1, n_steps)] fills [n_steps] rows; from two steps on the
    first row is the start and the last row is the end, and with one step
    the only row is the start. *)
Theorem interpolation_endpoints (d n_steps : nat) (start end_ : list R) :
  length start = d -> length end_ = d -> (1 <= n_steps)%nat ->
  exists vectors,
    interpolate (Single [start]) (Single [end_]) (np.linspace01 n_steps) 0
                (np.zeros n_steps d) = Ok vectors
    /\ length vectors = n_steps
    /\ nth 0 vectors [] = start
    /\ ((2 <= n_steps)%nat -> nth (n_steps - 1) vectors [] = end_).
Proof.
  intros Ls Le Hn. eexists. split; [apply (@interpolate_zeros d n_steps start end_ Ls Le)|].
  split; [now rewrite length_map, linspace01_length|].
  split.
  - rewrite (nth_indep _ [] (interpolated start end_ 0%R))
      by (rewrite length_map, linspace01_length; lia).
    rewrite map_nth, linspace01_first by lia.
    apply interpolated_0. congruence.
  - intros H2.
    rewrite (nth_indep _ [] (interpolated start end_ 0%R))
      by (rewrite length_map, linspace01_length; lia).
    rewrite map_nth, linspace01_last by lia.
    apply interpolated_1. congruence.
Qed.

Lemma interpolation_endpoints_witness :
  exists vectors,
    interpolate (Single [[1; 2]%R]) (Single [[3; 4]%R]) (np.linspace01 3) 0
                (np.zeros 3 2) = Ok vectors
    /\ length vectors = 3
    /\ nth 0 vectors [] = [1; 2]%R
    /\ (2 <= 3 -> nth (3 - 1) vectors [] = [3; 4]%R).
Proof.
  apply (@interpolation_endpoints 2 3 [1; 2]%R [3; 4]%R);
    [reflexivity | reflexivity | lia].
Defined.

(* ================================================================== *)
(** * Prediction as latent arithmetic *)

Section Arithmetic.
Context {B : Backend}.
Local Open Scope R_scope.

Lemma take_rows_in_range (ind : list nat) (m : tensor2) :
  Forall (fun i => (i < length m)%nat) ind ->
  np.take_rows ind m = Ok (rows_at ind m).
Proof.
  unfold np.take_rows, rows_at.
  induction ind as [|i ind IH]; intros H; cbn [rmapM map]; [reflexivity|].
  inversion H as [|? ? Hi Hind]; subst.
  rewrite (nth_error_nth' m [] Hi). cbn [rbind].
  now rewrite (IH Hind).
Qed.

Lemma rows_at_shape (n d : nat) (ind : list nat) (m : tensor2) :
  has_shape n d m -> Forall (fun i => (i < n)%nat) ind ->
  has_shape (length ind) d (rows_at ind m).
Proof.
  intros [Hn Hr] Hind. unfold rows_at. split; [apply length_map|].
  apply Forall_map. eapply Forall_impl; [|exact Hind].
  intros i Hi. cbn beta in Hi |- *. rewrite Forall_forall in Hr.
  apply Hr, nth_In. lia.
Qed.

Lemma latent_sample_shape (o : VAEArithKeras) (k n : nat) (x : tensor2) :
  encoder_shaped o -> has_shape n (x_dim o) x ->
  has_shape n (z_dim o) (latent_sample o k x).
Proof.
  intros Henc Hx. unfold latent_sample.
  destruct (Henc n x Hx) as [Hm Hl].
  rewrite (surjective_pairing (encoder_forward _ _)).
  now apply sample_z_shape.
Qed.

Lemma mean_axis0_shape (n d : nat) (z : tensor2) :
  has_shape n d z -> (1 <= n)%nat -> length (np.mean_axis0 z) = d.
Proof.
  intros [Hn Hr] H. rewrite mean_axis0_length. unfold shape1.
  destruct z as [|row z]; cbn in *; [lia | now inversion Hr].
Qed.

Lemma avg_vector_restored (data : matrix_like) (s : State) :
  model_outputs (encoder_model (self s)) = Out_Z ->
  widths_are (x_dim (self s)) (content data) = true ->
  _avg_vector data s
  = (Ok (Vec (np.mean_axis0 (latent_sample (self s) (draws s) (content data)))),
     {| self := self s; fs := fs s; draws := S (draws s);
        trace := trace s ++ [EncoderPredict (shape0 (content data))] |}).
Proof.
  intros Hz Hw. unfold _avg_vector.
  erewrite bind_ok by (apply to_latent_restored; assumption).
  reflexivity.
Qed.

Lemma rmapM_ok {X Y} (f : X -> result Y) (g : X -> Y) (l : list X) :
  Forall (fun x => f x = Ok (g x)) l -> rmapM f l = Ok (map g l).
Proof.
  induction 1 as [|x l Hx _ IH]; cbn [rmapM map]; [reflexivity|].
  now rewrite Hx, IH.
Qed.

(** A vector added to a matrix is added to each of its rows. *)
Lemma add_vec_mat (d : list R) (z : tensor2) :
  Forall (fun row => length row = length d) z ->
  np.add (Vec d) (Mat z) = Ok (Mat (shifted d z)).
Proof.
  intros H. unfold np.add, np.binop, np.op2, np.broadcast, shifted.
  assert (E : rmapM (fun y => np.op1 Rplus d y) z = Ok (map (map2 Rplus d) z)).
  { apply rmapM_ok. eapply Forall_impl; [|exact H].
    intros row Hrow. cbn beta. now apply op1_same_length. }
  destruct (length [d] =? length z)%nat eqn:L.
  - destruct z as [|row [|row' z]]; try discriminate.
    cbn [combine rmapM fst snd map] in *. now rewrite E.
  - now rewrite E.
Qed.

Lemma subtract_vec (u v : list R) :
  length u = length v ->
  np.subtract (Vec u) (Vec v) = Ok (Vec (map2 Rminus u v)).
Proof.
  intros H. unfold np.subtract, np.binop.
  now rewrite (op1_same_length _ _ _ H).
Qed.

Lemma shifted_rows (n d : nat) (delta : list R) (z : tensor2) :
  length delta = d -> has_shape n d z -> (1 <= n)%nat ->
  widths_are d (shifted delta z) = true.
Proof.
  intros Hd [Hn Hr] H. unfold widths_are, shifted.
  destruct z as [|row0 z]; [cbn in Hn; lia|].
  set (rows := row0 :: z) in *.
  assert (E : exists r rs, map (map2 Rplus delta) rows = r :: rs)
    by (unfold rows; cbn; eauto).
  destruct E as (r0 & rs & E). rewrite E, <- E. clear E r0 rs.
  apply forallb_forall.
  intros row Hrow. apply in_map_iff in Hrow as (r & <- & Hin).
  rewrite Forall_forall in Hr. rewrite map2_length by (rewrite (Hr r Hin); lia).
  rewrite Hd. apply Nat.eqb_refl.
Qed.

Lemma choice_run (n size : nat) (s : State) :
  choice n size s
  = (Ok (random_choice (draws s) n size),
     {| self := self s; fs := fs s; draws := S (draws s);
        trace := trace s ++ [RandomChoice n size] |}).
Proof. reflexivity. Qed.

End Arithmetic.

(** X9.  The second half of [predict] (lines 356-376) on a restored object,
    called with [adata_to_predict]: for non-empty control and stimulated
    subsets and at least one cell to predict, all of the width of the
    network, it returns, and what it returns is latent arithmetic.  Equally many cells, [min(n_ctrl, n_stim)], are
    drawn from each subset; [delta] is the mean latent of the stimulated
    draw minus the mean latent of the control draw, a vector of length
    [z_dim]; the predicted cells are the decoder's output for the latents
    of the cells to predict, each moved by [delta].  The representation of
    the data (dense or sparse) makes no difference. *)
Theorem predict_is_latent_arithmetic {B : Backend}
      (adata : AnnData) (conds : dict string) (a ctrl_x stim_x : AnnData)
      (nc ns n : nat) (w : weights) (s : State) :
  choice_in_range ->
  model_outputs (encoder_model (self s)) = Out_Z ->
  decoder_model (self s) = Some w ->
  encoder_shaped (self s) ->
  has_shape nc (x_dim (self s)) (content (X ctrl_x)) ->
  has_shape ns (x_dim (self s)) (content (X stim_x)) ->
  1 <= nc -> 1 <= ns ->
  has_shape n (x_dim (self s)) (content (X a)) ->
  1 <= n ->
  let k := draws s in
  let o := self s in
  let eq := Nat.min nc ns in
  let z_ctrl :=
    latent_sample o (2 + k)
                  (rows_at (random_choice k nc eq) (content (X ctrl_x))) in
  let z_stim :=
    latent_sample o (3 + k)
                  (rows_at (random_choice (1 + k) ns eq) (content (X stim_x))) in
  let delta := map2 Rminus (np.mean_axis0 z_stim) (np.mean_axis0 z_ctrl) in
  fst (predict_target adata conds (Some a) None ctrl_x stim_x s)
  = Ok (decoder_forward w (shifted delta (latent_sample o (4 + k) (content (X a)))),
        Vec delta)
  /\ length delta = z_dim o.
Proof.
  intros Hch Hz Hdec Henc Hc Hs Hnc Hns Ha Hn. cbn zeta. cbn [Nat.add].
  destruct (Hch (draws s) nc (Nat.min nc ns) ltac:(lia)) as [Lc Rc].
  destruct (Hch (S (draws s)) ns (Nat.min nc ns) ltac:(lia)) as [Lst Rst].
  set (cd_ind := random_choice (draws s) nc (Nat.min nc ns)) in *.
  set (stim_ind := random_choice (S (draws s)) ns (Nat.min nc ns)) in *.
  pose proof (rows_at_shape Hc Rc) as Sc.
  pose proof (rows_at_shape Hs Rst) as Sst.
  pose proof (latent_sample_shape (S (S (draws s))) Henc Sc) as Zc.
  pose proof (latent_sample_shape (S (S (S (draws s)))) Henc Sst) as Zst.
  pose proof (latent_sample_shape (S (S (S (S (draws s))))) Henc Ha) as Za.
  pose proof (mean_axis0_shape Zc ltac:(lia)) as Mc.
  pose proof (mean_axis0_shape Zst ltac:(lia)) as Mst.
  split; [|rewrite map2_length; congruence].
  assert (Wc : forall st, self st = self s ->
             widths_are (x_dim (self st)) (rows_at cd_ind (content (X ctrl_x)))
             = true).
  { intros st ->. apply (has_shape_widths Sc). lia. }
  assert (Wst : forall st, self st = self s ->
             widths_are (x_dim (self st)) (rows_at stim_ind (content (X stim_x)))
             = true).
  { intros st ->. apply (has_shape_widths Sst). lia. }
  assert (Tc : np.take_rows cd_ind (content (X ctrl_x))
               = Ok (rows_at cd_ind (content (X ctrl_x)))).
  { apply take_rows_in_range. now rewrite (proj1 Hc). }
  assert (Tst : np.take_rows stim_ind (content (X stim_x))
                = Ok (rows_at stim_ind (content (X stim_x)))).
  { apply take_rows_in_range. now rewrite (proj1 Hs). }
  unfold predict_target, choice, n_obs, shape0.
  rewrite (proj1 Hc), (proj1 Hs).
  unfold bind, lift, ret, fresh_draw, emit, modify.
  cbn [fst snd self fs draws trace].
  fold cd_ind stim_ind.
  set (z_ctrl := latent_sample (self s) (S (S (draws s)))
                   (rows_at cd_ind (content (X ctrl_x)))) in *.
  set (z_stim := latent_sample (self s) (S (S (S (draws s))))
                   (rows_at stim_ind (content (X stim_x)))) in *.
  set (z := latent_sample (self s) (S (S (S (S (draws s))))) (content (X a)))
    in *.
  set (delta := map2 Rminus (np.mean_axis0 z_stim) (np.mean_axis0 z_ctrl)).
  assert (Ld : length delta = z_dim (self s))
    by (unfold delta; rewrite map2_length; congruence).
  assert (Hadd : np.add (Vec delta) (Mat z) = Ok (Mat (shifted delta z))).
  { apply add_vec_mat. destruct Za as [_ Za].
    eapply Forall_impl; [|exact Za]. intros row Hrow. cbn beta in *.
    congruence. }
  assert (Hsub : np.subtract (Vec (np.mean_axis0 z_stim))
                             (Vec (np.mean_axis0 z_ctrl)) = Ok (Vec delta))
    by (apply subtract_vec; congruence).
  assert (Hw : widths_are (z_dim (self s)) (shifted delta z) = true)
    by exact (@shifted_rows n _ delta z Ld Za Hn).
  pose proof (has_shape_widths Ha Hn) as Wa.
  clearbody delta.
  destruct (X ctrl_x) as [mc|mc], (X stim_x) as [mst|mst];
    cbn [sparse.issparse andb dot_A index_rows content rbind] in *;
    rewrite ?Tc, ?Tst; cbn [rbind];
    (rewrite avg_vector_restored by (cbn [self content]; auto));
    cbn [self fs draws trace content];
    (rewrite avg_vector_restored by (cbn [self content]; auto));
    cbn [self fs draws trace content];
    fold z_ctrl z_stim; rewrite Hsub;
    destruct (X a) as [ma|ma];
    cbn [sparse.issparse dot_A content] in *;
    (rewrite to_latent_restored by (cbn [self content]; auto));
    cbn [self fs draws trace content];
    change (Single _) with (Single z);
    cbn [np.asarray]; rewrite Hadd;
    unfold reconstruct, bind, get, emit, modify, ret, raise;
    cbn [fst snd self fs draws trace]; rewrite Hdec;
    cbn [fst snd self fs draws trace]; rewrite Hw; reflexivity.
Qed.

Lemma small_backend_choice : @choice_in_range small_backend.
Proof.
  intros k n size H. cbn. split; [apply length_seq|].
  apply Forall_forall. intros i Hi. apply in_seq in Hi. lia.
Defined.

Lemma predict_is_latent_arithmetic_witness :
  let k := draws restored_object in
  let o := self restored_object in
  let eq := Nat.min 2 2 in
  let z_ctrl :=
    @latent_sample small_backend o (2 + k)
      (rows_at (@random_choice small_backend k 2 eq) (content (X two_cells))) in
  let z_stim :=
    @latent_sample small_backend o (3 + k)
      (rows_at (@random_choice small_backend (1 + k) 2 eq)
               (content (X two_cells))) in
  let delta := map2 Rminus (np.mean_axis0 z_stim) (np.mean_axis0 z_ctrl) in
  fst (predict_target four_cells ctrl_stim (Some two_cells) None
                      two_cells two_cells restored_object)
  = Ok (@decoder_forward small_backend (3, 2)
          (shifted delta (latent_sample o (4 + k) (content (X two_cells)))),
        Vec delta)
  /\ length delta = z_dim o.
Proof.
  apply (@predict_is_latent_arithmetic small_backend four_cells ctrl_stim
           two_cells two_cells two_cells 2 2 2 (3, 2) restored_object).
  - exact small_backend_choice.
  - reflexivity.
  - reflexivity.
  - apply small_backend_shaped. reflexivity.
  - split; [reflexivity | repeat constructor].
  - split; [reflexivity | repeat constructor].
  - lia.
  - lia.
  - split; [reflexivity | repeat constructor].
  - lia.
Defined.

(* ================================================================== *)
(** * What a failed or a successful [restore_model] leaves behind *)

Section RestoreOutcome.
Context {B : Backend}.

Lemma restore_model_not_a_vae (s : State) (a : h5) :
  lookup (fs s) (os_path_join (model_to_use (self s)) "vae.h5") = Some a ->
  h5_outputs a <> Out_x_hat ->
  let r := restore_model s in
  fst r = Raise IndexError
  /\ decoder_model (self (snd r))
     = Some (glorot_normal (x_dim (self s)) (z_dim (self s)) (draws s))
  /\ model_outputs (encoder_model (self (snd r))) = Out_Z
  /\ compiled (vae_model (self (snd r))) = false
  /\ layers (self (snd r)) = h5_weights a.
Proof.
  intros Hl Ho. cbn zeta.
  unfold restore_model, bind, get, emit, modify, fresh_draw, update_self,
    raise. cbn [fst snd].
  rewrite Hl. cbn [fst snd self fs draws trace].
  destruct (h5_outputs a); try (now destruct Ho); cbn; auto.
Qed.
End RestoreOutcome.

(** X10.  How [restore_model] fails.  Without a file at
    [model_path/vae.h5] it raises OSError and nothing has changed.  With a
    file that holds a model without the decoder layers it raises IndexError
    only after its assignments: the object is left with the weights of the
    file, an encoder model with the single output [Z], a VAE model that is
    not compiled, and a decoder model of freshly initialised weights. *)
Theorem restore_model_failures {B : Backend} (s : State) :
  let path := os_path_join (model_to_use (self s)) "vae.h5" in
  let r := restore_model s in
  (lookup (fs s) path = None -> r = (Raise (OSError path), s))
  /\ (forall a, lookup (fs s) path = Some a -> h5_outputs a <> Out_x_hat ->
        fst r = Raise IndexError
        /\ decoder_model (self (snd r))
           = Some (glorot_normal (x_dim (self s)) (z_dim (self s)) (draws s))
        /\ model_outputs (encoder_model (self (snd r))) = Out_Z
        /\ compiled (vae_model (self (snd r))) = false
        /\ layers (self (snd r)) = h5_weights a).
Proof.
  cbn zeta. split.
  - apply restore_model_missing.
  - intros a. apply restore_model_not_a_vae.
Qed.

Lemma restore_model_failures_witness :
  restore_model fresh_object
  = (Raise (OSError "./models/test/vae.h5"), fresh_object).
Proof.
  exact (proj1 (@restore_model_failures small_backend fresh_object) eq_refl).
Defined.

(* ================================================================== *)
(** * Inference leaves the object and the files alone *)

Section Files.
Context {B : Backend}.

Lemma to_latent_fs data : preserves fs (to_latent data).
Proof. unfold to_latent, keras_predict. preserves_tac. Qed.
#[local] Hint Resolve to_latent_fs : pres.

Lemma avg_vector_fs data : preserves fs (_avg_vector data).
Proof. unfold _avg_vector. preserves_tac. Qed.
#[local] Hint Resolve avg_vector_fs : pres.

Lemma reconstruct_fs data use_data : preserves fs (reconstruct data use_data).
Proof.
  unfold reconstruct. intros s. unfold bind, get. cbn.
  destruct (decoder_model (self s)); [destruct data|]; try reflexivity.
  cbn. now destruct (widths_are _ _).
Qed.
#[local] Hint Resolve reconstruct_fs : pres.

Lemma linear_interpolation_fs src dst n :
  preserves fs (linear_interpolation src dst n).
Proof.
  unfold linear_interpolation, linear_interpolation_with. preserves_tac.
Qed.

Lemma select_subsets_fs adata conds ok :
  preserves fs (select_subsets adata conds ok).
Proof. unfold select_subsets, call_balancer. preserves_tac. Qed.
#[local] Hint Resolve select_subsets_fs : pres.

Lemma check_target_fs atp ctp : preserves fs (check_target atp ctp).
Proof. unfold check_target. preserves_tac. Qed.
#[local] Hint Resolve check_target_fs : pres.

Lemma predict_target_fs adata conds atp ctp ctrl_x stim_x :
  preserves fs (predict_target adata conds atp ctp ctrl_x stim_x).
Proof. unfold predict_target, call_extractor, choice. preserves_tac. Qed.
#[local] Hint Resolve predict_target_fs : pres.

Lemma predict_fs adata conds atp ctp ok :
  preserves fs (predict adata conds atp ctp ok).
Proof. unfold predict. preserves_tac. Qed.

Lemma read_only_intro {X} (m : Py X) :
  preserves self m -> preserves fs m -> read_only m.
Proof. intros H1 H2 s. split; [apply H1 | apply H2]. Qed.
End Files.

(** X12.  The methods of inference are read-only: [to_latent],
    [_avg_vector], [reconstruct], [linear_interpolation] and [predict]
    assign no attribute of the object (weights and models included) and
    write no file, whatever their arguments, and whether they return or
    raise. *)
Theorem inference_is_read_only {B : Backend}
        (data : matrix_like) (latent : ndarray) (use_data : bool)
        (source_adata dest_adata : AnnData) (n_steps : nat)
        (adata : AnnData) (conditions : dict string)
        (adata_to_predict : option AnnData)
        (celltype_to_predict : option string) (obs_key : obs_key_t) :
  read_only (to_latent data)
  /\ read_only (_avg_vector data)
  /\ read_only (reconstruct latent use_data)
  /\ read_only (linear_interpolation source_adata dest_adata n_steps)
  /\ read_only (predict adata conditions adata_to_predict
                        celltype_to_predict obs_key).
Proof.
  repeat split; apply read_only_intro;
    auto using to_latent_self, to_latent_fs, avg_vector_self, avg_vector_fs,
      reconstruct_self, reconstruct_fs, linear_interpolation_self,
      linear_interpolation_fs, predict_self, predict_fs.
Qed.

(* ================================================================== *)
(** * The selection of the control and the stimulated cells *)

Section Selection.
Context {B : Backend}.

Lemma getitem_absent {V} (d : dict V) (k : string) :
  ~ In k (map fst d) -> getitem d k = Raise (KeyError k).
Proof.
  induction d as [|[k' v] d IH]; cbn [getitem map fst In]; intros H.
  - reflexivity.
  - destruct (String.eqb_spec k' k) as [E|_].
    + exfalso. apply H. now left.
    + apply IH. intros Hin. apply H. now right.
Qed.

Lemma getitem_first {V} (d : dict V) (k : string) (v : V) :
  getitem ((k, v) :: d) k = Ok v.
Proof. cbn [getitem]. now rewrite String.eqb_refl. Qed.

(** The selection after the first key of the [obs_key] dictionary has been
    read. *)
Lemma select_subsets_dict adata conds key values rest s :
  select_subsets adata conds (ObsDict ((key, values) :: rest)) s
  = select_subsets adata conds (ObsDict [(key, values)]) s.
Proof.
  unfold select_subsets, bind, lift.
  cbn [is_all keys map fst item nth_error obs_key_getitem getitem].
  now rewrite String.eqb_refl.
Qed.

Lemma select_subsets_not_a_dict adata conds name s :
  name <> "all"%string ->
  select_subsets adata conds (ObsStr name) s
  = (Raise (AttributeError "keys"), s).
Proof.
  intros H. apply String.eqb_neq in H.
  unfold select_subsets, bind, lift. cbn [is_all keys]. now rewrite H.
Qed.

Lemma select_subsets_empty_dict adata conds s :
  select_subsets adata conds (ObsDict []) s = (Raise IndexError, s).
Proof. reflexivity. Qed.

(** The balancer is called on both subsets, or on none. *)
Lemma select_subsets_balances adata conds key values rest subsets s :
  fst (select_subsets adata conds (ObsDict ((key, values) :: rest)) s)
  = Ok subsets ->
  trace (snd (select_subsets adata conds (ObsDict ((key, values) :: rest)) s))
  = trace s ++ (if 1 <? length values
                then [CallBalancer; CallBalancer] else []).
Proof.
  rewrite select_subsets_dict.
  unfold select_subsets, call_balancer, bind, lift, emit, modify, ret.
  cbn [is_all keys map fst item nth_error obs_key_getitem getitem].
  rewrite String.eqb_refl.
  repeat match goal with
         | |- context [match ?r with Ok _ => _ | Raise _ => _ end] =>
             destruct r; cbn [fst snd self fs draws trace];
             try discriminate
         end.
  destruct (1 <? length values); cbn [fst snd self fs draws trace];
    intros _; [now rewrite <- app_assoc | now rewrite app_nil_r].
Qed.

(** The three look-ups of the selection with [obs_key="all"]. *)
Lemma select_subsets_missing adata conds s :
  (~ In "condition"%string (map fst (obs adata)) ->
   select_subsets adata conds (ObsStr "all") s
   = (Raise (KeyError "condition"), s))
  /\ (forall column,
        getitem (obs adata) "condition" = Ok column ->
        ~ In "ctrl"%string (map fst conds) ->
        select_subsets adata conds (ObsStr "all") s
        = (Raise (KeyError "ctrl"), s))
  /\ (forall column ctrl,
        getitem (obs adata) "condition" = Ok column ->
        getitem conds "ctrl" = Ok ctrl ->
        ~ In "stim"%string (map fst conds) ->
        select_subsets adata conds (ObsStr "all") s
        = (Raise (KeyError "stim"), s)).
Proof.
  unfold select_subsets, with_condition, bind, lift.
  cbn [is_all String.eqb Ascii.eqb Bool.eqb].
  split; [|split].
  - intros H. now rewrite (getitem_absent _ _ H).
  - intros column Hc H. now rewrite Hc, (getitem_absent _ _ H).
  - intros column ctrl Hc Hk H. rewrite Hc, Hk. cbn [rbind].
    now rewrite (getitem_absent _ _ H).
Qed.
End Selection.

(** X13.  The [obs_key] argument of [predict].  A string other than
    ["all"] ends the call with AttributeError (a string has no [keys]), an
    empty dictionary with IndexError, both before anything else is done.
    Of a dictionary only the first entry is read: further entries change
    nothing.  When the selection by a dictionary succeeds, the two subsets
    were balanced exactly when the entry lists more than one value. *)
Theorem predict_obs_key {B : Backend}
        (adata : AnnData) (conds : dict string) (atp : option AnnData)
        (ctp : option string) (s : State) :
  (forall name, name <> "all"%string ->
     predict adata conds atp ctp (ObsStr name) s
     = (Raise (AttributeError "keys"), s))
  /\ predict adata conds atp ctp (ObsDict []) s = (Raise IndexError, s)
  /\ (forall key values rest,
        predict adata conds atp ctp (ObsDict ((key, values) :: rest)) s
        = predict adata conds atp ctp (ObsDict [(key, values)]) s)
  /\ (forall key values rest subsets,
        let selection :=
          select_subsets adata conds (ObsDict ((key, values) :: rest)) s in
        fst selection = Ok subsets ->
        trace (snd selection)
        = trace s ++ (if 1 <? length values
                      then [CallBalancer; CallBalancer] else [])).
Proof.
  split; [|split; [|split]].
  - intros name H. unfold predict. apply bind_raise.
    now apply select_subsets_not_a_dict.
  - reflexivity.
  - intros key values rest. unfold predict, bind at 1 3.
    now rewrite select_subsets_dict.
  - intros key values rest subsets. cbn zeta.
    apply select_subsets_balances.
Qed.

(** X14.  [predict] with [obs_key="all"] on incomplete inputs: without a
    column ["condition"] in [adata.obs], and then without the key ["ctrl"]
    or the key ["stim"] in [conditions], it raises the KeyError of that
    look-up, in this order, whatever the targets are; nothing has been
    called or changed by then. *)
Theorem predict_missing_keys {B : Backend}
        (adata : AnnData) (conds : dict string) (atp : option AnnData)
        (ctp : option string) (s : State) :
  (~ In "condition"%string (map fst (obs adata)) ->
   predict adata conds atp ctp (ObsStr "all") s
   = (Raise (KeyError "condition"), s))
  /\ (forall column,
        getitem (obs adata) "condition" = Ok column ->
        ~ In "ctrl"%string (map fst conds) ->
        predict adata conds atp ctp (ObsStr "all") s
        = (Raise (KeyError "ctrl"), s))
  /\ (forall column ctrl,
        getitem (obs adata) "condition" = Ok column ->
        getitem conds "ctrl" = Ok ctrl ->
        ~ In "stim"%string (map fst conds) ->
        predict adata conds atp ctp (ObsStr "all") s
        = (Raise (KeyError "stim"), s)).
Proof.
  destruct (select_subsets_missing adata conds s) as (H1 & H2 & H3).
  split; [|split].
  - intros H. unfold predict. apply bind_raise. now apply H1.
  - intros column Hc H. unfold predict. apply bind_raise.
    now apply (H2 column).
  - intros column ctrl Hc Hk H. unfold predict. apply bind_raise.
    now apply (H3 column ctrl).
Qed.

Lemma predict_obs_key_witness :
  predict four_cells ctrl_stim None (Some "CD4T"%string)
          (ObsStr "cell_type") fresh_object
  = (Raise (AttributeError "keys"), fresh_object).
Proof.
  apply (proj1 (@predict_obs_key small_backend four_cells ctrl_stim None
                  (Some "CD4T"%string) fresh_object)).
  discriminate.
Defined.

Lemma predict_missing_keys_witness :
  predict {| X := X four_cells; obs := [] |} ctrl_stim None
          (Some "CD4T"%string) (ObsStr "all") fresh_object
  = (Raise (KeyError "condition"), fresh_object).
Proof.
  apply (proj1 (@predict_missing_keys small_backend
                  {| X := X four_cells; obs := [] |} ctrl_stim None
                  (Some "CD4T"%string) fresh_object)).
  intros H. exact H.
Defined.
